(** * Health calculator: the metrics engine and the form handler

    A shallow embedding of [VITyarthiproject.py].  Python floats are IEEE 754
    binary64 numbers, so they are modelled by Rocq's primitive floats, whose
    operations are the same hardware operations; Python ints are [Z]; strings
    are [string]; a raised exception is a value of the error monad [result].

    The file has three layers, as the program has:
    - the Python builtins the program calls ([**], [/], [round], [str],
      [format]), in [Module Py];
    - the metrics engine (the module-level functions of the source);
    - the Tkinter form handler [HealthCalculatorApp.calculate_health], as a
      state transformer over the widgets it touches. *)

From Stdlib Require Import ZArith List String Ascii Bool Lia.
From Stdlib Require Import Floats DecimalString.
Import ListNotations.

Set Warnings "-inexact-float".

Local Open Scope string_scope.
Local Open Scope Z_scope.

(** ** Exceptions and results *)

(** The exception classes the program can meet.  [ValueError] carries its
    message, which the form handler prints in the alert. *)
Inductive exn : Type :=
| ZeroDivisionError
| OverflowError
| TypeError
| KeyError (key : string)
| ValueError (msg : string).

(** The outcome of evaluating a Python expression: a value, or a raised
    exception. *)
Inductive result (A : Type) : Type :=
| Ok (a : A)
| Raise (e : exn).

Arguments Ok {A} a.
Arguments Raise {A} e.

Definition bind {A B : Type} (r : result A) (k : A -> result B) : result B :=
  match r with
  | Ok a => k a
  | Raise e => Raise e
  end.

Notation "x <- r ;; k" := (bind r (fun x => k))
  (at level 61, r at next level, right associativity).

(** [try: body  except (TypeError, ValueError): handler]. *)
Definition try_except_type_value {A : Type} (body : result A) (handler : result A)
  : result A :=
  match body with
  | Raise TypeError => handler
  | Raise (ValueError _) => handler
  | other => other
  end.

(** ** Python builtins on floats and ints *)

Module Py.

(** [x ** 2] on a float (CPython's [float_pow] with exponent [2.0]): a NaN is
    returned as it is, an infinity gives [inf], and otherwise the C library's
    [pow] is called; a result that overflows raises [OverflowError], one that
    underflows is returned silently (as [0.0] or a subnormal).  The C
    library's [pow(x, 2.0)] is taken to be the correctly rounded square, the
    IEEE product [x * x]; a C library may return the float next to it. *)
Definition float_pow2 (x : float) : result float :=
  if is_nan x then Ok x
  else if is_infinity x then Ok infinity
  else
    let r := (x * x)%float in
    if is_infinity r then Raise OverflowError else Ok r.

(** [a / b] on floats: [ZeroDivisionError] when [b] is a zero of either sign,
    the IEEE quotient otherwise. *)
Definition float_truediv (a b : float) : result float :=
  if is_zero b then Raise ZeroDivisionError else Ok (a / b)%float.

(** Nearest integer to [a / b] for [0 <= a] and [0 < b], ties to even. *)
Definition div_half_even (a b : Z) : Z :=
  let q := a / b in
  let r := a mod b in
  match 2 * r ?= b with
  | Lt => q
  | Gt => q + 1
  | Eq => if Z.even q then q else q + 1
  end.

(** Nearest integer to [m * 2^e * 10^nd], ties to even: the decimal digits
    that CPython's correctly rounded conversion produces for [nd] places. *)
Definition scaled_round (m : positive) (e : Z) (nd : nat) : Z :=
  let p := 10 ^ Z.of_nat nd in
  if 0 <=? e then Z.pos m * 2 ^ e * p
  else div_half_even (Z.pos m * p) (2 ^ (- e)).

(** [round(x, nd)] for a float and [nd >= 0]: NaNs, infinities and zeros
    round to themselves; a finite [x] is rounded to [nd] decimal places on its
    exact value (ties to even) and the decimal [n / 10^nd] is converted back
    to the nearest float.  [SFdiv] computes that correctly rounded quotient of
    two integers. *)
Definition float_round (x : float) (nd : nat) : float :=
  match Prim2SF x with
  | S754_finite s m e =>
      match scaled_round m e nd with
      | Z.pos n =>
          SF2Prim (SFdiv prec emax (S754_finite s n 0)
                     (S754_finite false (Z.to_pos (10 ^ Z.of_nat nd)) 0))
      | _ => if s then neg_zero else zero
      end
  | _ => x
  end.

(** [str(n)] for an int. *)
Definition str_of_int (n : Z) : string := NilZero.string_of_int (Z.to_int n).

(** [s * n] for a string and a count. *)
Fixpoint repeat_string (s : string) (n : nat) : string :=
  match n with
  | O => ""
  | S n' => s ++ repeat_string s n'
  end.

Definition zero_pad (width : nat) (s : string) : string :=
  repeat_string "0" (width - String.length s) ++ s.

Definition sign_string (s : bool) : string := if s then "-" else "".

(** The digits of [n / 10^nd] with [nd] places after the point. *)
Definition fixed_digits (n : Z) (nd : nat) : string :=
  let p := 10 ^ Z.of_nat nd in
  str_of_int (n / p) ++
  match nd with
  | O => ""
  | S _ => "." ++ zero_pad nd (str_of_int (n mod p))
  end.

(** [format(x, '.{nd}f')], the conversion behind [f"{x:.1f}"] and
    [f"{x:.2f}"]: the exact value rounded to [nd] places, ties to even. *)
Definition float_format_fixed (x : float) (nd : nat) : string :=
  match Prim2SF x with
  | S754_nan => "nan"
  | S754_infinity s => sign_string s ++ "inf"
  | S754_zero s => sign_string s ++ fixed_digits 0 nd
  | S754_finite s m e => sign_string s ++ fixed_digits (scaled_round m e nd) nd
  end.

(** The decimals [c * 10^k] that read back as the float [m * 2^e]: they lie
    between the midpoints to its two neighbours, the midpoints included when
    [m] is even.  [Some c] is the one nearest to the float, [None] when no
    multiple of [10^k] lies there.  Everything is scaled by [4] so that the
    midpoints are integers; the lower neighbour is half as far when [m] is a
    power of two. *)
Definition repr_candidate (m : positive) (e : Z) (k : Z) : option Z :=
  let boundary := (Z.pos m =? 2 ^ 52) && (-1074 <? e) in
  let v := 4 * Z.pos m in
  let lo := v - (if boundary then 1 else 2) in
  let hi := v + 2 in
  let e2 := e - 2 in
  let up := (if 0 <=? e2 then 2 ^ e2 else 1) * (if 0 <=? k then 1 else 10 ^ (- k)) in
  let t := (if 0 <=? e2 then 1 else 2 ^ (- e2)) * (if 0 <=? k then 10 ^ k else 1) in
  let inclusive := Z.even (Z.pos m) in
  let cmin := if inclusive then (lo * up + t - 1) / t else lo * up / t + 1 in
  let cmax := if inclusive then hi * up / t else (hi * up - 1) / t in
  if cmin <=? cmax
  then Some (Z.max cmin (Z.min cmax (div_half_even (v * up) t)))
  else None.

(** The shortest decimal that reads back as the float: the largest power of
    ten, from [10^k] downwards, that has a multiple among the candidates. *)
Fixpoint repr_search (fuel : nat) (m : positive) (e : Z) (k : Z) : Z * Z :=
  match fuel with
  | O => (0, k)
  | S fuel' =>
      match repr_candidate m e k with
      | Some c => (c, k)
      | None => repr_search fuel' m e (k - 1)
      end
  end.

(** How [repr] lays the digits out: plainly when the decimal point falls
    within [-4 < decpt <= 16], with an exponent of at least two digits
    otherwise. *)
Definition repr_layout (ds : string) (decpt : Z) : string :=
  let n := Z.of_nat (String.length ds) in
  if (-4 <? decpt) && (decpt <=? 16) then
    if decpt <=? 0 then "0." ++ repeat_string "0" (Z.to_nat (- decpt)) ++ ds
    else if n <=? decpt then ds ++ repeat_string "0" (Z.to_nat (decpt - n)) ++ ".0"
    else substring 0 (Z.to_nat decpt) ds ++ "." ++
         substring (Z.to_nat decpt) (Z.to_nat (n - decpt)) ds
  else
    let ex := decpt - 1 in
    match ds with
    | "" => ""
    | String c "" => String c ""
    | String c rest => String c ("." ++ rest)
    end ++ "e" ++ (if ex <? 0 then "-" else "+") ++ zero_pad 2 (str_of_int (Z.abs ex)).

(** An upper bound on the decimal exponent of [m * 2^e], from its binary
    one ([0.30103] bounds [log10 2] from above; the [+ 2] covers the error
    of that bound over the whole exponent range). *)
Definition repr_start (m : positive) (e : Z) : Z :=
  (Z.pos (digits2_pos m) + e + 1) * 30103 / 100000 + 2.

(** [repr(x)], which is also [str(x)] and [f"{x}"] for a float.  The
    shortest decimal has at most 17 digits, so the search ends within some
    twenty steps of [repr_start]. *)
Definition float_repr (x : float) : string :=
  match Prim2SF x with
  | S754_nan => "nan"
  | S754_infinity s => sign_string s ++ "inf"
  | S754_zero s => sign_string s ++ "0.0"
  | S754_finite s m e =>
      let '(c, k) := repr_search 40 m e (repr_start m e) in
      let ds := str_of_int c in
      sign_string s ++ repr_layout ds (Z.of_nat (String.length ds) + k)
  end.

End Py.

(** ** Constants for health metrics *)

(** [BMI_CATEGORIES]: a dict, which Python iterates in insertion order, so an
    association list in that order. *)
Definition BMI_CATEGORIES : list (string * (float * float)) :=
  [ ("Underweight",   (0.0, 18.5)%float);
    ("Normal weight", (18.5, 25.0)%float);
    ("Overweight",    (25.0, 30.0)%float);
    ("Obesity",       (30.0%float, infinity)) ].

(** ** Core calculation functions *)

(** The arguments are floats, as the form handler passes them.  The test
    [height_m <= 0] against the int [0] is the float comparison with [0.0],
    and the [return 0.0] of both exits is the positive zero. *)
Definition calculate_bmi (weight_kg height_m : float) : result float :=
  if (height_m <=? 0)%float then Ok 0%float
  else
    try_except_type_value
      (d <- Py.float_pow2 height_m ;;
       bmi <- Py.float_truediv weight_kg d ;;
       Ok (Py.float_round bmi 2))
      (Ok 0%float).

(** The loop of [get_bmi_category] over the rest of the table. *)
Fixpoint scan_categories (table : list (string * (float * float))) (bmi : float)
  : string * float * float :=
  match table with
  | [] => ("Unknown", 0%float, 0%float)
  | (category, (min_val, max_val)) :: rest =>
      if ((min_val <=? bmi) && (bmi <? max_val))%float
      then (category, min_val, max_val)
      else scan_categories rest bmi
  end.

Definition get_bmi_category (bmi : float) : string * float * float :=
  scan_categories BMI_CATEGORIES bmi.

(** [d[key]] on a dict with string keys: [KeyError] when the key is absent. *)
Fixpoint dict_getitem {V : Type} (d : list (string * V)) (key : string) : result V :=
  match d with
  | [] => Raise (KeyError key)
  | (k, v) :: rest => if String.eqb k key then Ok v else dict_getitem rest key
  end.

(** [d.get(key, default)]. *)
Definition dict_get {V : Type} (d : list (string * V)) (key : string) (default : V) : V :=
  match dict_getitem d key with
  | Ok v => v
  | Raise _ => default
  end.

(** The local dict [explanations] of [get_bmi_explanation]. *)
Definition explanations : list (string * string) :=
  [ ("Underweight", "This range suggests you may not be consuming enough nutrients or calories. Consult a professional for healthy weight gain strategies.");
    ("Normal weight", "Your weight is considered healthy relative to your height, indicating a lower risk of common obesity-related diseases.");
    ("Overweight", "This range indicates carrying excess weight. A focus on diet and increased activity is recommended to reduce health risks.");
    ("Obesity", "This range is associated with a significantly increased risk for serious health conditions. Professional consultation for a weight management plan is strongly advised.");
    ("Unknown", "Could not determine a standard BMI meaning.") ].

(** [explanations.get(category, explanations['Unknown'])]: the default is
    looked up first, as Python evaluates the arguments before the call. *)
Definition get_bmi_explanation (category : string) : result string :=
  default <- dict_getitem explanations "Unknown" ;;
  Ok (dict_get explanations category default).

(** ** Recommendation functions *)

(** [SLEEP_RECOMMENDATIONS]: age group to [(min_hours, max_hours)], ints. *)
Definition SLEEP_RECOMMENDATIONS : list (string * (Z * Z)) :=
  [ ("18-64", (7, 9));
    ("65+", (7, 8)) ].

(** The hours slept: the form passes a float, a direct caller may pass an
    int, and [f"{hours}"] prints the two differently. *)
Inductive pynum : Type :=
| PyInt (n : Z)
| PyFloat (x : float).

(** Python compares a float with an int by their exact values; a NaN
    compares with nothing.  The float is [+-m * 2^e]. *)
Definition float_cmp_int (x : float) (n : Z) : option comparison :=
  match Prim2SF x with
  | S754_nan => None
  | S754_infinity s => Some (if s then Lt else Gt)
  | S754_zero _ => Some (0 ?= n)
  | S754_finite s m e =>
      let v := if s then Z.neg m else Z.pos m in
      Some (if 0 <=? e then v * 2 ^ e ?= n else v ?= n * 2 ^ (- e))
  end.

Definition num_cmp_int (h : pynum) (n : Z) : option comparison :=
  match h with
  | PyInt z => Some (z ?= n)
  | PyFloat x => float_cmp_int x n
  end.

(** [h < n] and [h > n] for an int [n]. *)
Definition num_lt_int (h : pynum) (n : Z) : bool :=
  match num_cmp_int h n with Some Lt => true | _ => false end.

Definition num_gt_int (h : pynum) (n : Z) : bool :=
  match num_cmp_int h n with Some Gt => true | _ => false end.

(** [f"{h}"]. *)
Definition num_str (h : pynum) : string :=
  match h with
  | PyInt z => Py.str_of_int z
  | PyFloat x => Py.float_repr x
  end.

(** The three f-strings of [get_sleep_feedback]. *)
Definition sleep_below_message (hours : pynum) (min_h max_h : Z) (age_group : string) : string :=
  "You slept " ++ num_str hours ++ " hours, which is less than the recommended "
    ++ Py.str_of_int min_h ++ "-" ++ Py.str_of_int max_h
    ++ " hours for your age group (" ++ age_group ++ "). "
    ++ "Recommendation: Try to prioritize an earlier bedtime and aim for a consistent sleep schedule to improve rest and focus.".

Definition sleep_above_message (hours : pynum) (min_h max_h : Z) (age_group : string) : string :=
  "You slept " ++ num_str hours ++ " hours, which is slightly more than the recommended "
    ++ Py.str_of_int min_h ++ "-" ++ Py.str_of_int max_h
    ++ " hours for your age group (" ++ age_group ++ "). "
    ++ "Recommendation: Excessive sleep can sometimes indicate underlying issues. If this is unusual, review your daily routine for consistent sleep quality.".

Definition sleep_within_message (hours : pynum) (min_h max_h : Z) : string :=
  "Excellent! Your sleep of " ++ num_str hours ++ " hours falls perfectly within the recommended "
    ++ Py.str_of_int min_h ++ "-" ++ Py.str_of_int max_h ++ " hour range. "
    ++ "Recommendation: Maintain this consistent sleep pattern for optimal health.".

Definition minors_message : string :=
  "Note: Specific recommendations for minors/children are not included in this model.".

(** [get_sleep_feedback] from the table lookup on, once [age_group] is set. *)
Definition sleep_feedback_for (age_group : string) (hours : pynum) : result string :=
  range <- dict_getitem SLEEP_RECOMMENDATIONS age_group ;;
  let '(min_h, max_h) := range in
  if num_lt_int hours min_h then Ok (sleep_below_message hours min_h max_h age_group)
  else if num_gt_int hours max_h then Ok (sleep_above_message hours min_h max_h age_group)
  else Ok (sleep_within_message hours min_h max_h).

(** The age is an int, as the form handler passes it. *)
Definition get_sleep_feedback (age : Z) (hours : pynum) : result string :=
  if (18 <=? age) && (age <=? 64) then sleep_feedback_for "18-64" hours
  else if 65 <=? age then sleep_feedback_for "65+" hours
  else Ok minors_message.

Definition get_activity_feedback (activity_level_str : string) : string :=
  if String.eqb activity_level_str "Sedentary" then
    "Sedentary Lifestyle Detected. Recommendation: Aim to break up long periods of sitting (e.g., stand up every hour). "
    ++ "Start with 30 minutes of light activity (like walking) daily and gradually increase intensity to moderate."
  else if String.eqb activity_level_str "Moderate" then
    "Moderate Activity Level. Recommendation: You are meeting minimum guidelines! "
    ++ "To maximize benefits, ensure you incorporate strength training (2-3 times per week) alongside your cardio for muscle and bone health."
  else if String.eqb activity_level_str "Active" then
    "Active Lifestyle! Recommendation: Excellent work. To prevent injury and fatigue, ensure proper recovery time, nutrition, and hydration. "
    ++ "Consider mixing up your routines to engage different muscle groups."
  else "Activity Recommendation: Could not determine specific advice.".

Definition get_smoking_advice (smoking_status : string) : string :=
  if String.eqb smoking_status "Yes" then
    "Smoking Status: Tobacco use is extremely detrimental to cardiovascular and respiratory health. "
    ++ "Health Priority: Seek support to quit smoking immediately. Resources like quit-lines or medical professionals can provide vital assistance."
  else if String.eqb smoking_status "No" then
    "Smoking Status: Non-smoker. Excellent! "
    ++ "Recommendation: Maintain this status and avoid exposure to second-hand smoke to protect your long-term health."
  else "Smoking Status: Unknown. Please confirm your smoking status for relevant advice.".

Definition wellness_tip : string :=
  "General Wellness Tip: Aim for 5 servings of fruits and vegetables daily and minimize processed foods.".

Definition hydration_tip : string :=
  "Hydration Tip: Drink at least 8 glasses (about 2 liters) of water per day.".

(** The list starts with the two general tips; [append] adds the tip of the
    category, if it is one of the four. *)
Definition generate_health_recommendations (category : string) : list string :=
  let recommendations := [ wellness_tip; hydration_tip ] in
  if String.eqb category "Underweight" then
    recommendations ++ [ "Nutritional Focus: Consider nutrient-dense foods (healthy fats, lean proteins) and consult a professional about healthy ways to gain muscle and fat mass." ]
  else if String.eqb category "Normal weight" then
    recommendations ++ [ "Maintenance Goal: Focus on consistency. Continue balancing a healthy diet with regular, varied exercise." ]
  else if String.eqb category "Overweight" then
    recommendations ++ [ "Dietary Change: Prioritize whole foods and increase high-fiber, low-calorie options like vegetables. Focus on sustainable portion control." ]
  else if String.eqb category "Obesity" then
    recommendations ++ [ "Health Priority: It is highly recommended to consult a healthcare provider for a personalized, safe, and effective plan. Focus on achievable, small, consistent changes." ]
  else recommendations.

(** ** The form handler *)

Definition nl : string := String (ascii_of_nat 10) "".

(** The text of an entry as [int] or [float] reads it: the number it
    denotes, or no number, with the message of the [ValueError] the builtin
    then raises. *)
Inductive entry (A : Type) : Type :=
| Parsed (value : A)
| Unparsable (msg : string).

Arguments Parsed {A} value.
Arguments Unparsable {A} msg.

(** [int(text)] and [float(text)]. *)
Definition convert {A : Type} (e : entry A) : result A :=
  match e with
  | Parsed value => Ok value
  | Unparsable msg => Raise (ValueError msg)
  end.

(** What the handler reads from the form: four entries, which it converts
    with [int] (the age) and [float], and the strings of two comboboxes. *)
Record form : Type := {
  age_entry : entry Z;
  height_cm_entry : entry float;
  weight_kg_entry : entry float;
  sleep_hours_entry : entry float;
  activity_var : string;
  smoking_var : string
}.

(** The local variables the [try] block of [calculate_health] leaves. *)
Record inputs : Type := {
  age : Z;
  height_cm : float;
  weight_kg : float;
  sleep_hours : float;
  activity_level_str : string;
  smoking_status : string
}.

(** The part of the window the handler acts on: the content of the
    [results_text] widget and the alerts [messagebox.showerror] has shown,
    each a title and a message, oldest first. *)
Record gui : Type := {
  results_text : string;
  alerts : list (string * string)
}.

(** [self.results_text.delete(1.0, tk.END)]. *)
Definition text_delete_all (w : gui) : gui :=
  {| results_text := ""; alerts := alerts w |}.

(** [self.results_text.insert(tk.END, text)]. *)
Definition text_insert_end (w : gui) (text : string) : gui :=
  {| results_text := results_text w ++ text; alerts := alerts w |}.

(** [messagebox.showerror(title, message)]. *)
Definition showerror (w : gui) (title message : string) : gui :=
  {| results_text := results_text w; alerts := alerts w ++ [ (title, message) ] |}.

(** Step 1, the body of the [try]: gather and validate the input.  The
    comparisons with the int [0] are comparisons with [0.0]. *)
Definition gather_and_validate (f : form) : result inputs :=
  age <- convert (age_entry f) ;;
  height_cm <- convert (height_cm_entry f) ;;
  weight_kg <- convert (weight_kg_entry f) ;;
  sleep_hours <- convert (sleep_hours_entry f) ;;
  let activity_level_str := activity_var f in
  let smoking_status := smoking_var f in
  if (age <=? 0) || (height_cm <=? 0)%float || (weight_kg <=? 0)%float
     || (sleep_hours <? 0)%float
  then Raise (ValueError "All numerical inputs must be positive.")
  else Ok {| age := age; height_cm := height_cm; weight_kg := weight_kg;
             sleep_hours := sleep_hours;
             activity_level_str := activity_level_str;
             smoking_status := smoking_status |}.

(** Steps 2 and 3: the BMI and its category, or the exception that
    [calculate_bmi] raises.  The division by the int [100] is the float
    division by [100.0]. *)
Definition bmi_and_category (i : inputs) : result (float * (string * float * float)) :=
  height_m <- Py.float_truediv (height_cm i) 100 ;;
  bmi <- calculate_bmi (weight_kg i) height_m ;;
  Ok (bmi, get_bmi_category bmi).

(** Steps 2 to 5: the report, or the exception that ends the handler. *)
Definition health_report (i : inputs) : result string :=
  r <- bmi_and_category i ;;
  let '(bmi, (category, min_val, max_val)) := r in
  bmi_meaning <- get_bmi_explanation category ;;
  let report := "" in
  let report := report ++ Py.repeat_string "=" 50 ++ nl in
  let report := report ++ "          COMPREHENSIVE HEALTH METRICS REPORT" ++ nl in
  let report := report ++ Py.repeat_string "=" 50 ++ nl in
  let report := report ++ "Age: " ++ Py.str_of_int (age i) ++ " years" ++ nl in
  let report := report ++ "Height: " ++ Py.float_format_fixed (height_cm i) 1
                  ++ " cm | Weight: " ++ Py.float_format_fixed (weight_kg i) 1
                  ++ " kg" ++ nl in
  let report := report ++ Py.repeat_string "-" 50 ++ nl in
  let report := report ++ "Calculated BMI: " ++ Py.float_format_fixed bmi 2 ++ nl in
  let report := report ++ "BMI Category: " ++ category ++ nl in
  let report := report ++ "(Ideal BMI Range: " ++ Py.float_format_fixed min_val 1
                  ++ " to " ++ Py.float_format_fixed max_val 1 ++ ")" ++ nl in
  let report := report ++ nl ++ "[ BMI Overall Meaning ]" ++ nl in
  let report := report ++ "-> " ++ bmi_meaning ++ nl in
  let report := report ++ Py.repeat_string "=" 50 ++ nl in
  let report := report ++ nl ++ "[ Sleep Recommendation ]" ++ nl in
  sleep_advice <- get_sleep_feedback (age i) (PyFloat (sleep_hours i)) ;;
  let report := report ++ "-> " ++ sleep_advice ++ nl in
  let report := report ++ nl ++ "[ Activity Recommendation ]" ++ nl in
  let activity_advice := get_activity_feedback (activity_level_str i) in
  let report := report ++ "-> " ++ activity_advice ++ nl in
  let report := report ++ nl ++ "[ Smoking Status Advice ]" ++ nl in
  let smoking_advice := get_smoking_advice (smoking_status i) in
  let report := report ++ "-> " ++ smoking_advice ++ nl in
  let report := report ++ nl ++ "[ General Health & Diet Suggestions ]" ++ nl in
  let health_suggestions := generate_health_recommendations category in
  let report :=
    fold_left (fun report suggestion => report ++ "-> " ++ suggestion ++ nl)
      health_suggestions report in
  Ok report.

(** The handler around steps 2 to 5, which are its parameter [report_of]:
    the window after the click, and [Ok tt] when the handler returns or the
    exception that leaves it.  The widget is cleared first; a [ValueError] of
    step 1 is shown in an alert and the handler returns; any other exception
    is not caught. *)
Definition submit (report_of : inputs -> result string) (w : gui) (f : form)
  : gui * result unit :=
  let w := text_delete_all w in
  match gather_and_validate f with
  | Raise (ValueError e) =>
      (showerror w "Input Error"
         ("Please check your input values: " ++ e
          ++ ". Ensure Age, Height, Weight, and Sleep are valid numbers."),
       Ok tt)
  | Raise e => (w, Raise e)
  | Ok i =>
      match report_of i with
      | Raise e => (w, Raise e)
      | Ok report => (text_insert_end w report, Ok tt)
      end
  end.

(** [HealthCalculatorApp.calculate_health]. *)
Definition calculate_health (w : gui) (f : form) : gui * result unit :=
  submit health_report w f.

(** ** The comboboxes of [create_widgets]

    Both are read-only: the user picks one of the listed values, and the
    variable starts at the given one. *)

(** [values] and the initial value of [self.activity_combo]. *)
Definition activity_values : list string := [ "Sedentary"; "Moderate"; "Active" ].

Definition activity_default : string := "Sedentary".

(** [values] and the initial value of [self.smoking_combo]. *)
Definition smoking_values : list string := [ "No"; "Yes" ].

Definition smoking_default : string := "No".

(** ** Vocabulary of the statements *)

(** [needle in hay]. *)
Fixpoint contains (needle hay : string) : bool :=
  String.prefix needle hay ||
  match hay with
  | "" => false
  | String _ rest => contains needle rest
  end.

(** [h <= n] and [h >= n] for an int [n], as Python evaluates them. *)
Definition num_le_int (h : pynum) (n : Z) : bool :=
  match num_cmp_int h n with Some Lt | Some Eq => true | _ => false end.

Definition num_ge_int (h : pynum) (n : Z) : bool :=
  match num_cmp_int h n with Some Gt | Some Eq => true | _ => false end.

(** The four categories that have a tip of their own. *)
Definition weight_categories : list string :=
  [ "Underweight"; "Normal weight"; "Overweight"; "Obesity" ].

(** An entry whose text [int] or [float] could not parse. *)
Definition parse_failed {A : Type} (e : entry A) : bool :=
  match e with
  | Parsed _ => false
  | Unparsable _ => true
  end.

(** The invalid input of the specification: a numeric field that fails to
    parse, an age, height or weight that is not positive, or negative sleep
    hours. *)
Definition invalid_input (f : form) : bool :=
  parse_failed (age_entry f) || parse_failed (height_cm_entry f)
  || parse_failed (weight_kg_entry f) || parse_failed (sleep_hours_entry f)
  || match age_entry f with Parsed a => a <=? 0 | Unparsable _ => false end
  || match height_cm_entry f with Parsed h => (h <=? 0)%float | Unparsable _ => false end
  || match weight_kg_entry f with Parsed x => (x <=? 0)%float | Unparsable _ => false end
  || match sleep_hours_entry f with Parsed s => (s <? 0)%float | Unparsable _ => false end.

(** The alert of the handler for a [ValueError] with message [e]. *)
Definition input_error_alert (e : string) : string * string :=
  ("Input Error",
   "Please check your input values: " ++ e
   ++ ". Ensure Age, Height, Weight, and Sleep are valid numbers.").

(** A window that shows the report of an earlier submission. *)
Definition window_with_report : gui :=
  {| results_text := "BMI Category: Normal weight"; alerts := [] |}.

(** A form whose age field holds the text [abc]. *)
Definition form_with_bad_age : form :=
  {| age_entry := Unparsable "invalid literal for int() with base 10: 'abc'";
     height_cm_entry := Parsed 170%float;
     weight_kg_entry := Parsed 70%float;
     sleep_hours_entry := Parsed 8%float;
     activity_var := "Moderate";
     smoking_var := "No" |}.

(** The submission of the specification's end-to-end example. *)
Definition example_form : form :=
  {| age_entry := Parsed 25;
     height_cm_entry := Parsed 170%float;
     weight_kg_entry := Parsed 70%float;
     sleep_hours_entry := Parsed 8%float;
     activity_var := "Moderate";
     smoking_var := "No" |}.

Definition example_inputs : inputs :=
  {| age := 25; height_cm := 170; weight_kg := 70; sleep_hours := 8;
     activity_level_str := "Moderate"; smoking_status := "No" |}.

(** The example with a height of [1e-198] cm typed into the form. *)
Definition form_with_tiny_height : form :=
  {| age_entry := Parsed 25;
     height_cm_entry := Parsed 1e-198%float;
     weight_kg_entry := Parsed 70%float;
     sleep_hours_entry := Parsed 8%float;
     activity_var := "Moderate";
     smoking_var := "No" |}.

(** The headings of the five sections of the report. *)
Definition section_labels : list string :=
  [ "[ BMI Overall Meaning ]";
    "[ Sleep Recommendation ]";
    "[ Activity Recommendation ]";
    "[ Smoking Status Advice ]";
    "[ General Health & Diet Suggestions ]" ].

(** [min_val <= bmi < max_val], the test of [get_bmi_category]. *)
Definition in_interval (bmi min_val max_val : float) : bool :=
  ((min_val <=? bmi) && (bmi <? max_val))%float.

(** The intervals of a table tile [[lo, hi)]: the first starts at [lo], each
    one is non-empty and ends where the next starts, and the last ends at
    [hi]. *)
Fixpoint tiles (lo : float) (table : list (string * (float * float))) (hi : float)
  : Prop :=
  match table with
  | [] => lo = hi
  | (_, (min_val, max_val)) :: rest =>
      min_val = lo /\ (min_val <? max_val)%float = true /\ tiles max_val rest hi
  end.

(** The default of [get_bmi_explanation] and the last [return] of
    [get_activity_feedback] and of [get_smoking_advice]. *)
Definition default_explanation : string :=
  "Could not determine a standard BMI meaning.".

Definition activity_fallback : string :=
  "Activity Recommendation: Could not determine specific advice.".

Definition smoking_fallback : string :=
  "Smoking Status: Unknown. Please confirm your smoking status for relevant advice.".

(** The message of the [ValueError] the validation raises itself. *)
Definition positivity_message : string := "All numerical inputs must be positive.".

(** A form whose weight field holds the text [inf], and what the validation
    reads from it. *)
Definition form_with_infinite_weight : form :=
  {| age_entry := Parsed 25;
     height_cm_entry := Parsed 170%float;
     weight_kg_entry := Parsed infinity;
     sleep_hours_entry := Parsed 8%float;
     activity_var := "Moderate";
     smoking_var := "No" |}.

Definition inputs_with_infinite_weight : inputs :=
  {| age := 25; height_cm := 170; weight_kg := infinity; sleep_hours := 8;
     activity_level_str := "Moderate"; smoking_status := "No" |}.

(** A decoded float whose sign bit is clear, or a NaN. *)
Definition sf_plus (x : spec_float) : bool :=
  match x with
  | S754_zero s | S754_infinity s | S754_finite s _ _ => negb s
  | S754_nan => true
  end.

(** A decoded float that is not below zero: a NaN, a zero of either sign, or
    a float whose sign bit is clear. *)
Definition sf_not_neg (x : spec_float) : bool :=
  match x with
  | S754_infinity s | S754_finite s _ _ => negb s
  | S754_zero _ | S754_nan => true
  end.

(** ** Proof automation for the order on decoded floats *)

(** Splits every comparison of exponents and mantissas and closes the cases
    by linear arithmetic. *)
Ltac order_cases :=
  repeat match goal with
  | |- context [Pos.compare_cont Eq ?a ?b] =>
      change (Pos.compare_cont Eq a b) with (Pos.compare a b)
  | H : context [Pos.compare_cont Eq ?a ?b] |- _ =>
      change (Pos.compare_cont Eq a b) with (Pos.compare a b) in H
  end;
  repeat match goal with
  | H : context [Z.compare ?a ?b] |- _ => destruct (Z.compare_spec a b); simpl in H
  | H : context [Pos.compare ?a ?b] |- _ => destruct (Pos.compare_spec a b); simpl in H
  | |- context [Z.compare ?a ?b] => destruct (Z.compare_spec a b); simpl
  | |- context [Pos.compare ?a ?b] => destruct (Pos.compare_spec a b); simpl
  end;
  try discriminate; try reflexivity; try lia.

Ltac split_or H :=
  match type of H with
  | _ \/ _ => destruct H as [H|H]
  | _ => idtac
  end.

(** Transitivity of [SFcompare] through [b], by cases on the three floats. *)
Ltac order_by_cases a b c :=
  destruct a as [[|]|[|]| |[|] ? ?], b as [[|]|[|]| |[|] ? ?], c as [[|]|[|]| |[|] ? ?];
  simpl; intros H1 H2; split_or H1; split_or H2;
  try discriminate; try reflexivity;
  injection H1 as H1; injection H2 as H2; f_equal; order_cases.

(** ** Proof automation for strings *)

(** Splits every comparison of strings. *)
Ltac string_cases :=
  repeat match goal with
  | |- context [String.eqb ?a ?b] => destruct (String.eqb_spec a b); subst
  end.

(** Finds a piece of text in a concatenation: [self], [here], [right] and
    [left] are the lemmas for the needle itself, the needle at the head, and
    the two sides of [++]. *)
Ltac find_piece self here right left :=
  first [ apply self
        | apply here
        | apply right; find_piece self here right left
        | apply left; find_piece self here right left ].

(** * Properties *)

(** ** The order on floats

    The comparisons are primitive; [FloatAxioms] relates them to [SFcompare]
    on the decoded floats, where the order is a case analysis. *)

Lemma SFcompare_antisym (x y : spec_float) :
  SFcompare y x = option_map CompOpp (SFcompare x y).
Proof.
  destruct x as [sx|sx| |sx mx ex], y as [sy|sy| |sy my ey]; simpl;
    try destruct sx; try destruct sy; try reflexivity.
  - rewrite (Z.compare_antisym ex ey).
    destruct (ex ?= ey) eqn:E; simpl; try reflexivity.
    change (Pos.compare_cont Eq my mx) with (Pos.compare my mx).
    change (Pos.compare_cont Eq mx my) with (Pos.compare mx my).
    rewrite (Pos.compare_antisym mx my). now rewrite CompOpp_involutive.
  - rewrite (Z.compare_antisym ex ey).
    destruct (ex ?= ey) eqn:E; simpl; try reflexivity.
    change (Pos.compare_cont Eq my mx) with (Pos.compare my mx).
    change (Pos.compare_cont Eq mx my) with (Pos.compare mx my).
    now rewrite (Pos.compare_antisym mx my).
Qed.

(** [a <= b < c] gives [a < c]. *)
Lemma SFcompare_le_lt (a b c : spec_float) :
  SFcompare a b = Some Lt \/ SFcompare a b = Some Eq ->
  SFcompare b c = Some Lt ->
  SFcompare a c = Some Lt.
Proof. order_by_cases a b c. Qed.

Lemma leb_cases (a b : float) :
  (a <=? b)%float = true <->
  SFcompare (Prim2SF a) (Prim2SF b) = Some Lt \/
  SFcompare (Prim2SF a) (Prim2SF b) = Some Eq.
Proof.
  rewrite leb_spec. unfold SFleb.
  destruct (SFcompare (Prim2SF a) (Prim2SF b)) as [[ | | ]|]; intuition congruence.
Qed.

Lemma ltb_cases (a b : float) :
  (a <? b)%float = true <-> SFcompare (Prim2SF a) (Prim2SF b) = Some Lt.
Proof.
  rewrite ltb_spec. unfold SFltb.
  destruct (SFcompare (Prim2SF a) (Prim2SF b)) as [[ | | ]|]; intuition congruence.
Qed.

Lemma float_le_lt_trans (a b c : float) :
  (a <=? b)%float = true -> (b <? c)%float = true -> (a <? c)%float = true.
Proof.
  rewrite leb_cases, !ltb_cases. intros H1 H2.
  apply (SFcompare_le_lt _ (Prim2SF b)); auto.
Qed.

(** A float that compares with anything is no NaN: it compares with itself. *)
Lemma float_le_self_r (a b : float) :
  (a <=? b)%float = true -> (b <=? b)%float = true.
Proof.
  rewrite !leb_cases. destruct (Prim2SF a) as [[|]|[|]| |[|] ? ?],
    (Prim2SF b) as [[|]|[|]| |[|] mb eb]; simpl;
    intros [H|H]; try discriminate; auto;
    rewrite Z.compare_refl;
    change (Pos.compare_cont Eq mb mb) with (Pos.compare mb mb);
    rewrite Pos.compare_refl; auto.
Qed.

(** The order is total away from NaN: [not (a < b)] is [b <= a]. *)
Lemma float_not_lt_le (a b : float) :
  (a <=? a)%float = true -> (b <=? b)%float = true ->
  (a <? b)%float = false -> (b <=? a)%float = true.
Proof.
  intros Ha Hb Hlt. apply leb_cases.
  assert (Hn : SFcompare (Prim2SF a) (Prim2SF b) <> Some Lt).
  { intro H. apply ltb_cases in H. congruence. }
  rewrite (SFcompare_antisym (Prim2SF a) (Prim2SF b)).
  apply leb_cases in Ha, Hb.
  destruct (Prim2SF a) as [[|]|[|]| |[|] ? ?], (Prim2SF b) as [[|]|[|]| |[|] ? ?];
    simpl in *; try tauto;
    try (destruct Ha as [Ha|Ha]; discriminate Ha);
    try (destruct Hb as [Hb|Hb]; discriminate Hb);
    clear Ha Hb;
    match goal with
    | |- context [Z.compare ?x ?y] =>
        destruct (Z.compare x y); simpl in *; try tauto
    end;
    match goal with
    | |- context [Pos.compare_cont Eq ?x ?y] =>
        destruct (Pos.compare_cont Eq x y); simpl in *; try tauto
    end.
Qed.


(** ** The BMI category table and [get_bmi_category] *)

Lemma in_BMI_CATEGORIES (c : string) (lo hi : float) :
  In (c, (lo, hi)) BMI_CATEGORIES ->
  (c, lo, hi) = ("Underweight", 0, 18.5)%float \/
  (c, lo, hi) = ("Normal weight", 18.5, 25)%float \/
  (c, lo, hi) = ("Overweight", 25, 30)%float \/
  (c, lo, hi) = ("Obesity", 30%float, infinity).
Proof.
  unfold BMI_CATEGORIES. simpl.
  intros [H|[H|[H|[H|[]]]]]; injection H as <- <- <-; auto.
Qed.

(** No float lies in two intervals whose order is known: [x < b] and
    [b' <= x] need [b' < b]. *)
Lemma not_in_both (x b b' : float) :
  (b' <? b)%float = false ->
  (x <? b)%float = true -> (b' <=? x)%float = true -> False.
Proof.
  intros Hbb Hlt Hle.
  pose proof (float_le_lt_trans _ _ _ Hle Hlt). congruence.
Qed.

(** C1 (as amended): the table maps each category to a half-open interval
    [[min, max)], and the intervals tile [[0, inf)] with no gap and no
    overlap; so for every finite [bmi >= 0], that is [0 <= bmi < inf],
    [get_bmi_category] returns an entry of the table whose interval contains
    [bmi], and no other entry's interval contains it. *)
Theorem bmi_categories_partition :
  tiles 0%float BMI_CATEGORIES infinity /\
  forall bmi : float,
    (0 <=? bmi)%float = true -> (bmi <? infinity)%float = true ->
    exists category min_val max_val,
      get_bmi_category bmi = (category, min_val, max_val) /\
      In (category, (min_val, max_val)) BMI_CATEGORIES /\
      in_interval bmi min_val max_val = true /\
      forall c lo hi,
        In (c, (lo, hi)) BMI_CATEGORIES -> in_interval bmi lo hi = true ->
        (c, lo, hi) = (category, min_val, max_val).
Proof.
  split.
  { unfold BMI_CATEGORIES. simpl. repeat split; reflexivity. }
  intros bmi H0 Hinf.
  assert (Hb : (bmi <=? bmi)%float = true) by exact (float_le_self_r _ _ H0).
  unfold get_bmi_category, BMI_CATEGORIES, in_interval. cbn [scan_categories].
  rewrite H0. cbn [andb].
  destruct (bmi <? 18.5)%float eqn:E1.
  { exists "Underweight", 0%float, 18.5%float.
    rewrite H0, E1. repeat split; [simpl; auto|].
    intros c lo hi Hin Hc. apply andb_prop in Hc as [Hlo Hhi].
    apply in_BMI_CATEGORIES in Hin as [H|[H|[H|H]]];
      injection H as -> -> ->; try reflexivity; exfalso;
      eapply (not_in_both bmi 18.5%float); eauto; reflexivity. }
  assert (H1 : (18.5 <=? bmi)%float = true)
    by (apply float_not_lt_le; auto; reflexivity).
  rewrite H1. cbn [andb].
  destruct (bmi <? 25)%float eqn:E2.
  { exists "Normal weight", 18.5%float, 25%float.
    rewrite H1, E2. repeat split; [simpl; auto|].
    intros c lo hi Hin Hc. apply andb_prop in Hc as [Hlo Hhi].
    apply in_BMI_CATEGORIES in Hin as [H|[H|[H|H]]];
      injection H as -> -> ->; try reflexivity; try congruence; exfalso;
      eapply (not_in_both bmi 25%float); eauto; reflexivity. }
  assert (H2 : (25 <=? bmi)%float = true)
    by (apply float_not_lt_le; auto; reflexivity).
  rewrite H2. cbn [andb].
  destruct (bmi <? 30)%float eqn:E3.
  { exists "Overweight", 25%float, 30%float.
    rewrite H2, E3. repeat split; [simpl; auto|].
    intros c lo hi Hin Hc. apply andb_prop in Hc as [Hlo Hhi].
    apply in_BMI_CATEGORIES in Hin as [H|[H|[H|H]]];
      injection H as -> -> ->; try reflexivity; try congruence; exfalso;
      eapply (not_in_both bmi 30%float); eauto; reflexivity. }
  assert (H3 : (30 <=? bmi)%float = true)
    by (apply float_not_lt_le; auto; reflexivity).
  rewrite H3, Hinf. cbn [andb].
  exists "Obesity", 30%float, infinity.
  rewrite H3, Hinf. repeat split; [simpl; auto 6|].
  intros c lo hi Hin Hc. apply andb_prop in Hc as [Hlo Hhi].
  apply in_BMI_CATEGORIES in Hin as [H|[H|[H|H]]];
    injection H as -> -> ->; try reflexivity; congruence.
Qed.

(** The statement at [bmi = 22.5]. *)
Lemma bmi_categories_partition_witness :
  exists category min_val max_val,
    get_bmi_category 22.5 = (category, min_val, max_val) /\
    In (category, (min_val, max_val)) BMI_CATEGORIES /\
    in_interval 22.5 min_val max_val = true /\
    forall c lo hi,
      In (c, (lo, hi)) BMI_CATEGORIES -> in_interval 22.5 lo hi = true ->
      (c, lo, hi) = (category, min_val, max_val).
Proof.
  apply (proj2 bmi_categories_partition 22.5%float); reflexivity.
Defined.

(** C1 as stated fails at [bmi = inf], which is [>= 0] and which
    [calculate_bmi] returns when the quotient overflows: the last interval
    [[30, inf)] excludes its upper end, no interval contains [inf], and the
    result is the fallback, whose interval [[0, 0)] does not contain it. *)
Lemma bmi_category_of_infinity :
  calculate_bmi 1e308 0.001 = Ok infinity /\
  (0 <=? infinity)%float = true /\
  get_bmi_category infinity = ("Unknown", 0%float, 0%float) /\
  in_interval infinity 0 0 = false /\
  forallb (fun entry => negb (in_interval infinity (fst (snd entry)) (snd (snd entry))))
    BMI_CATEGORIES = true.
Proof. vm_compute. repeat split. Qed.

(** C5: a boundary value belongs to the interval it starts. *)
Theorem bmi_category_boundaries :
  get_bmi_category 18.5 = ("Normal weight", 18.5%float, 25%float) /\
  get_bmi_category 25.0 = ("Overweight", 25%float, 30%float) /\
  get_bmi_category 30.0 = ("Obesity", 30%float, infinity).
Proof. vm_compute. repeat split. Qed.

(** C9: a negative [bmi], which [calculate_bmi] returns for a negative
    weight, lies in no interval of the table; [get_bmi_category] returns the
    fallback [("Unknown", 0.0, 0.0)], whose interval does not contain [bmi],
    and [get_bmi_explanation] maps ["Unknown"] to the default explanation. *)
Theorem negative_bmi_is_unknown :
  (calculate_bmi (-70) 1.7 = Ok (-24.22)%float /\ (-24.22 <? 0)%float = true) /\
  get_bmi_explanation "Unknown" = Ok "Could not determine a standard BMI meaning." /\
  forall bmi : float,
    (bmi <? 0)%float = true ->
    (forall c lo hi, In (c, (lo, hi)) BMI_CATEGORIES -> in_interval bmi lo hi = false) /\
    get_bmi_category bmi = ("Unknown", 0%float, 0%float) /\
    in_interval bmi 0 0 = false.
Proof.
  split; [vm_compute; split; reflexivity|].
  split; [vm_compute; reflexivity|].
  intros bmi Hneg.
  assert (Hlow : forall lo : float, (lo <? 0)%float = false -> (lo <=? bmi)%float = false).
  { intros lo Hlo. destruct (lo <=? bmi)%float eqn:E; [|reflexivity].
    pose proof (float_le_lt_trans _ _ _ E Hneg). congruence. }
  assert (H0 : (0 <=? bmi)%float = false) by (apply Hlow; reflexivity).
  assert (H1 : (18.5 <=? bmi)%float = false) by (apply Hlow; reflexivity).
  assert (H2 : (25 <=? bmi)%float = false) by (apply Hlow; reflexivity).
  assert (H3 : (30 <=? bmi)%float = false) by (apply Hlow; reflexivity).
  repeat split.
  - intros c lo hi Hin. unfold in_interval.
    apply in_BMI_CATEGORIES in Hin as [H|[H|[H|H]]]; injection H as -> -> ->;
      rewrite ?H0, ?H1, ?H2, ?H3; reflexivity.
  - unfold get_bmi_category, BMI_CATEGORIES. cbn [scan_categories].
    rewrite H0, H1, H2, H3. reflexivity.
  - unfold in_interval. rewrite H0. reflexivity.
Qed.

(** The statement at [bmi = -24.22]. *)
Lemma negative_bmi_is_unknown_witness :
  (forall c lo hi, In (c, (lo, hi)) BMI_CATEGORIES ->
     in_interval (-24.22) lo hi = false) /\
  get_bmi_category (-24.22) = ("Unknown", 0%float, 0%float) /\
  in_interval (-24.22) 0 0 = false.
Proof.
  apply (proj2 (proj2 negative_bmi_is_unknown) (-24.22)%float). reflexivity.
Defined.

(** ** [calculate_bmi] *)

(** C4: whatever the weight, a height [<= 0] gives [0.0], returned and not
    raised; in particular a height of [0]. *)
Theorem calculate_bmi_nonpositive_height (weight_kg height_m : float) :
  (height_m <=? 0)%float = true ->
  calculate_bmi weight_kg height_m = Ok 0%float.
Proof. intros H. unfold calculate_bmi. rewrite H. reflexivity. Qed.

(** The statement at a height of [0], for a weight of [70] and for a NaN. *)
Lemma calculate_bmi_nonpositive_height_witness :
  calculate_bmi 70 0 = Ok 0%float /\ calculate_bmi nan 0 = Ok 0%float.
Proof.
  split; apply calculate_bmi_nonpositive_height; reflexivity.
Defined.

(** ** [get_sleep_feedback] *)

Lemma append_inv_head (a b c : string) : a ++ b = a ++ c -> b = c.
Proof.
  induction a as [|ch a IH]; simpl; intros H; [exact H|].
  injection H as H. auto.
Qed.

(** Above a bound is above every lower bound. *)
Lemma num_cmp_int_Gt_mono (h : pynum) (lo hi : Z) :
  lo <= hi -> num_cmp_int h hi = Some Gt -> num_cmp_int h lo = Some Gt.
Proof.
  intros Hle. destruct h as [z|x]; simpl.
  - intros H. injection H as H. f_equal.
    apply Z.compare_gt_iff in H. apply Z.compare_gt_iff. lia.
  - unfold float_cmp_int. destruct (Prim2SF x) as [s|[|]| |s m e]; try easy.
    + intros H. destruct hi; try discriminate H.
      destruct lo; try lia. reflexivity.
    + intros H. injection H as H. f_equal. destruct (0 <=? e).
      * apply Z.compare_gt_iff in H. apply Z.compare_gt_iff. lia.
      * apply Z.compare_gt_iff in H. apply Z.compare_gt_iff.
        assert (0 <= 2 ^ (- e)) by (apply Z.pow_nonneg; lia). nia.
Qed.

(** What [sleep_feedback_for] returns for a group the table has. *)
Lemma sleep_feedback_for_range (group : string) (lo hi : Z) (hours : pynum) :
  dict_getitem SLEEP_RECOMMENDATIONS group = Ok (lo, hi) -> lo <= hi ->
  (num_lt_int hours lo = true ->
   sleep_feedback_for group hours = Ok (sleep_below_message hours lo hi group)) /\
  (num_gt_int hours hi = true ->
   sleep_feedback_for group hours = Ok (sleep_above_message hours lo hi group)) /\
  (num_ge_int hours lo = true -> num_le_int hours hi = true ->
   sleep_feedback_for group hours = Ok (sleep_within_message hours lo hi)).
Proof.
  intros Hget Hle. unfold sleep_feedback_for. rewrite Hget. cbn [bind].
  repeat split.
  - intros H. now rewrite H.
  - intros H. rewrite H.
    unfold num_gt_int in H. unfold num_lt_int.
    destruct (num_cmp_int hours hi) as [[| |]|] eqn:E; try discriminate.
    now rewrite (num_cmp_int_Gt_mono _ _ _ Hle E).
  - unfold num_ge_int, num_le_int, num_lt_int, num_gt_int.
    destruct (num_cmp_int hours lo) as [[| |]|]; try discriminate;
      destruct (num_cmp_int hours hi) as [[| |]|]; try discriminate; reflexivity.
Qed.

(** C6: minors get the fixed message; ages 18 to 64 are advised against the
    range 7-9 and ages from 65 against 7-8; within a group the message is the
    below, the above or the within one as [hours] lies below, above or within
    the range, and the three differ.  The three calls of the specification
    give the within message for 7-9, the below message for 7-8 and the
    minors message. *)
Theorem sleep_feedback_by_age_and_hours :
  (forall age hours, age < 18 -> get_sleep_feedback age hours = Ok minors_message) /\
  (forall age hours, 18 <= age <= 64 ->
     (num_lt_int hours 7 = true ->
      get_sleep_feedback age hours = Ok (sleep_below_message hours 7 9 "18-64")) /\
     (num_gt_int hours 9 = true ->
      get_sleep_feedback age hours = Ok (sleep_above_message hours 7 9 "18-64")) /\
     (num_ge_int hours 7 = true -> num_le_int hours 9 = true ->
      get_sleep_feedback age hours = Ok (sleep_within_message hours 7 9))) /\
  (forall age hours, 65 <= age ->
     (num_lt_int hours 7 = true ->
      get_sleep_feedback age hours = Ok (sleep_below_message hours 7 8 "65+")) /\
     (num_gt_int hours 8 = true ->
      get_sleep_feedback age hours = Ok (sleep_above_message hours 7 8 "65+")) /\
     (num_ge_int hours 7 = true -> num_le_int hours 8 = true ->
      get_sleep_feedback age hours = Ok (sleep_within_message hours 7 8))) /\
  (forall hours lo hi group,
     sleep_below_message hours lo hi group <> sleep_above_message hours lo hi group /\
     sleep_below_message hours lo hi group <> sleep_within_message hours lo hi /\
     sleep_above_message hours lo hi group <> sleep_within_message hours lo hi) /\
  get_sleep_feedback 30 (PyInt 8) =
    Ok "Excellent! Your sleep of 8 hours falls perfectly within the recommended 7-9 hour range. Recommendation: Maintain this consistent sleep pattern for optimal health." /\
  get_sleep_feedback 70 (PyInt 6) =
    Ok "You slept 6 hours, which is less than the recommended 7-8 hours for your age group (65+). Recommendation: Try to prioritize an earlier bedtime and aim for a consistent sleep schedule to improve rest and focus." /\
  get_sleep_feedback 10 (PyInt 9) =
    Ok "Note: Specific recommendations for minors/children are not included in this model.".
Proof.
  split; [|split; [|split; [|split]]].
  - intros age hours H. unfold get_sleep_feedback.
    replace (18 <=? age) with false by (symmetry; apply Z.leb_gt; lia).
    replace (65 <=? age) with false by (symmetry; apply Z.leb_gt; lia).
    reflexivity.
  - intros age hours [H1 H2]. unfold get_sleep_feedback.
    replace (18 <=? age) with true by (symmetry; apply Z.leb_le; lia).
    replace (age <=? 64) with true by (symmetry; apply Z.leb_le; lia).
    cbn [andb]. apply sleep_feedback_for_range; [reflexivity | lia].
  - intros age hours H. unfold get_sleep_feedback.
    replace (age <=? 64) with false by (symmetry; apply Z.leb_gt; lia).
    replace (65 <=? age) with true by (symmetry; apply Z.leb_le; lia).
    rewrite andb_false_r. apply sleep_feedback_for_range; [reflexivity | lia].
  - intros hours lo hi group.
    unfold sleep_below_message, sleep_above_message, sleep_within_message.
    repeat split; intros H.
    + apply append_inv_head, append_inv_head in H. discriminate H.
    + discriminate H.
    + discriminate H.
  - vm_compute. repeat split.
Qed.

(** The statement at the ages 10, 30 and 70, for hours given as a float. *)
Lemma sleep_feedback_by_age_and_hours_witness :
  get_sleep_feedback 10 (PyFloat 9) = Ok minors_message /\
  get_sleep_feedback 30 (PyFloat 9.5) = Ok (sleep_above_message (PyFloat 9.5) 7 9 "18-64") /\
  get_sleep_feedback 70 (PyFloat 7.5) = Ok (sleep_within_message (PyFloat 7.5) 7 8).
Proof.
  pose proof sleep_feedback_by_age_and_hours as [Hminor [Hadult [Hsenior _]]].
  split; [apply Hminor; lia|].
  split; [apply Hadult; [lia | reflexivity]|].
  apply Hsenior; [lia | reflexivity | reflexivity].
Defined.

(** ** [generate_health_recommendations] *)

(** C10: the list always starts with the two general tips; it has a third
    element exactly for the four weight categories, and that element tells
    the categories apart; for any other string the list is the two tips. *)
Theorem health_recommendations_shape (category : string) :
  (exists rest,
     generate_health_recommendations category = wellness_tip :: hydration_tip :: rest) /\
  (In category weight_categories ->
   List.length (generate_health_recommendations category) = 3%nat) /\
  (~ In category weight_categories ->
   generate_health_recommendations category = [ wellness_tip; hydration_tip ]) /\
  (forall other, In category weight_categories -> In other weight_categories ->
     nth_error (generate_health_recommendations category) 2 =
     nth_error (generate_health_recommendations other) 2 ->
     category = other).
Proof.
  unfold generate_health_recommendations, weight_categories.
  repeat split.
  - repeat match goal with
    | |- context [String.eqb ?a ?b] => destruct (String.eqb a b)
    end; eexists; reflexivity.
  - intros [<-|[<-|[<-|[<-|[]]]]]; reflexivity.
  - intros Hnot.
    repeat match goal with
    | |- context [String.eqb ?a ?b] =>
        destruct (String.eqb_spec a b) as [->|?]; [exfalso; apply Hnot; simpl; tauto|]
    end. reflexivity.
  - intros other [<-|[<-|[<-|[<-|[]]]]] [<-|[<-|[<-|[<-|[]]]]]; simpl;
      intros H; try reflexivity; discriminate H.
Qed.

(** The statement at ["Obesity"] and at a string that is no category. *)
Lemma health_recommendations_shape_witness :
  List.length (generate_health_recommendations "Obesity") = 3%nat /\
  generate_health_recommendations "Unknown" = [ wellness_tip; hydration_tip ].
Proof.
  split.
  - apply (proj1 (proj2 (health_recommendations_shape "Obesity"))).
    simpl. tauto.
  - apply (proj1 (proj2 (proj2 (health_recommendations_shape "Unknown")))).
    simpl. intros [H|[H|[H|[H|[]]]]]; discriminate H.
Defined.

(** ** The form handler *)

(** On invalid input step 1 raises a [ValueError]. *)
Lemma invalid_input_raises (f : form) :
  invalid_input f = true ->
  exists e, gather_and_validate f = Raise (ValueError e).
Proof.
  destruct f as [a h x s act smo].
  unfold invalid_input, gather_and_validate. cbn [age_entry
    height_cm_entry weight_kg_entry sleep_hours_entry activity_var smoking_var].
  destruct a as [a|]; cbn [convert parse_failed orb bind];
    [|intros; eexists; reflexivity].
  destruct h as [h|]; cbn [convert parse_failed orb bind];
    [|intros; eexists; reflexivity].
  destruct x as [x|]; cbn [convert parse_failed orb bind];
    [|intros; eexists; reflexivity].
  destruct s as [s|]; cbn [convert parse_failed orb bind];
    [|intros; eexists; reflexivity].
  intros H. rewrite H. eexists; reflexivity.
Qed.

(** C3 (as amended): when a numeric field fails to parse, or the age, height
    or weight is not positive, or the sleep hours are negative, the
    validation raises a [ValueError]; the handler shows one alert, titled
    [Input Error], and returns, whatever steps 2 to 5 would compute, which
    are not run; and the results area, which the handler clears before it
    validates, is left empty. *)
Theorem invalid_input_alert (w : gui) (f : form) :
  invalid_input f = true ->
  exists e,
    gather_and_validate f = Raise (ValueError e) /\
    calculate_health w f =
      ({| results_text := ""; alerts := alerts w ++ [ input_error_alert e ] |},
       Ok tt) /\
    forall report_of,
      submit report_of w f = calculate_health w f.
Proof.
  intros Hi. destruct (invalid_input_raises f Hi) as [e He].
  exists e. unfold calculate_health, submit. rewrite He.
  repeat split.
Qed.

(** The statement for a form whose age is the text [abc], and for one whose
    age is [0]. *)
Lemma invalid_input_alert_witness :
  (exists e,
     gather_and_validate form_with_bad_age = Raise (ValueError e) /\
     calculate_health window_with_report form_with_bad_age =
       ({| results_text := ""; alerts := [ input_error_alert e ] |}, Ok tt) /\
     forall report_of,
       submit report_of window_with_report form_with_bad_age =
       calculate_health window_with_report form_with_bad_age) /\
  (exists e,
     calculate_health window_with_report
       {| age_entry := Parsed 0; height_cm_entry := Parsed 170%float;
          weight_kg_entry := Parsed 70%float; sleep_hours_entry := Parsed 8%float;
          activity_var := "Active"; smoking_var := "Yes" |} =
       ({| results_text := ""; alerts := [ input_error_alert e ] |}, Ok tt)).
Proof.
  split.
  - apply (invalid_input_alert window_with_report form_with_bad_age).
    reflexivity.
  - destruct (invalid_input_alert window_with_report
       {| age_entry := Parsed 0; height_cm_entry := Parsed 170%float;
          weight_kg_entry := Parsed 70%float; sleep_hours_entry := Parsed 8%float;
          activity_var := "Active"; smoking_var := "Yes" |} eq_refl)
      as [e [_ [H _]]].
    exists e. exact H.
Defined.

(** C3 as stated fails: the report of the earlier submission does not stay.
    After a submission whose age does not parse the results area is empty. *)
Lemma previous_report_is_cleared :
  invalid_input form_with_bad_age = true /\
  results_text window_with_report = "BMI Category: Normal weight" /\
  results_text (fst (calculate_health window_with_report form_with_bad_age)) = "" /\
  results_text (fst (calculate_health window_with_report form_with_bad_age))
    <> results_text window_with_report.
Proof. vm_compute. repeat split. discriminate. Qed.

(** C8: the example submission passes validation; its BMI is [24.22] and its
    category ["Normal weight"]; the handler returns without an exception and
    without an alert, and the report it leaves in the results area has the
    five section headings and shows the BMI and the category. *)
Theorem example_submission (w : gui) :
  gather_and_validate example_form = Ok example_inputs /\
  bmi_and_category example_inputs = Ok (24.22%float, ("Normal weight", 18.5%float, 25%float)) /\
  exists report,
    calculate_health w example_form =
      ({| results_text := report; alerts := alerts w |}, Ok tt) /\
    forallb (fun label => contains label report) section_labels = true /\
    contains "Calculated BMI: 24.22" report = true /\
    contains "BMI Category: Normal weight" report = true.
Proof.
  split; [vm_compute; reflexivity|].
  split; [vm_compute; reflexivity|].
  destruct (health_report example_inputs) as [report|e] eqn:E;
    [|vm_compute in E; discriminate E].
  exists report.
  split.
  - unfold calculate_health, submit.
    replace (gather_and_validate example_form) with (Ok example_inputs)
      by (vm_compute; reflexivity).
    rewrite E. reflexivity.
  - vm_compute in E. injection E as <-. vm_compute. repeat split.
Qed.

(** ** Where [calculate_bmi] raises *)

(** C2 at a failing input: the weight [70] and the height [1e-200] are
    positive, the square of the height underflows to [0.0], and the division
    raises [ZeroDivisionError], which the [except] clause does not catch: the
    call returns no number. *)
Theorem calculate_bmi_tiny_height :
  (0 <? 70)%float = true /\ (0 <? 1e-200)%float = true /\
  Py.float_pow2 1e-200 = Ok 0%float /\
  calculate_bmi 70 1e-200 = Raise ZeroDivisionError.
Proof. vm_compute. repeat split. Qed.

(** C7 at failing inputs: [calculate_bmi] raises [ZeroDivisionError] for a
    height whose square underflows and [OverflowError] for one whose square
    overflows; the form accepts such a height, and the exception then leaves
    the handler, with the results area cleared and no alert shown. *)
Theorem calculate_bmi_raises :
  calculate_bmi 70 1e-200 = Raise ZeroDivisionError /\
  calculate_bmi 70 1e200 = Raise OverflowError /\
  invalid_input form_with_tiny_height = false /\
  calculate_health window_with_report form_with_tiny_height =
    ({| results_text := ""; alerts := [] |}, Raise ZeroDivisionError).
Proof. vm_compute. repeat split. Qed.

(** ** What the engine raises, and what it returns otherwise *)







Lemma get_bmi_explanation_returns (category : string) :
  exists text, get_bmi_explanation category = Ok text.
Proof.
  unfold get_bmi_explanation.
  replace (dict_getitem explanations "Unknown")
    with (Ok "Could not determine a standard BMI meaning.")
    by (vm_compute; reflexivity).
  cbn [bind]. eexists; reflexivity.
Qed.

Lemma get_sleep_feedback_returns (age : Z) (hours : pynum) :
  exists text, get_sleep_feedback age hours = Ok text.
Proof.
  unfold get_sleep_feedback, sleep_feedback_for.
  replace (dict_getitem SLEEP_RECOMMENDATIONS "18-64") with (Ok (7, 9))
    by reflexivity.
  replace (dict_getitem SLEEP_RECOMMENDATIONS "65+") with (Ok (7, 8))
    by reflexivity.
  cbn [bind].
  destruct ((18 <=? age) && (age <=? 64)); [|destruct (65 <=? age)];
    try destruct (num_lt_int hours 7);
    try destruct (num_gt_int hours 9);
    try destruct (num_gt_int hours 8);
    eexists; reflexivity.
Qed.

(** X3: the lookups of the engine find their keys: [get_bmi_explanation]
    and [get_sleep_feedback] return a string for every argument. *)
Theorem engine_lookups_return :
  (forall category, exists text, get_bmi_explanation category = Ok text) /\
  (forall age hours, exists text, get_sleep_feedback age hours = Ok text).
Proof.
  split;
    [exact get_bmi_explanation_returns | exact get_sleep_feedback_returns].
Qed.



(** ** More on the order of floats, and NaN *)

Lemma SFcompare_le_le (a b c : spec_float) :
  SFcompare a b = Some Lt \/ SFcompare a b = Some Eq ->
  SFcompare b c = Some Lt \/ SFcompare b c = Some Eq ->
  SFcompare a c = Some Lt \/ SFcompare a c = Some Eq.
Proof.
  destruct a as [[|]|[|]| |[|] ? ?], b as [[|]|[|]| |[|] ? ?], c as [[|]|[|]| |[|] ? ?];
  simpl; intros H1 H2; split_or H1; split_or H2;
  try discriminate; auto;
  injection H1 as H1; injection H2 as H2; order_cases;
  try (left; reflexivity); try (right; reflexivity).
Qed.

Lemma float_le_le_trans (a b c : float) :
  (a <=? b)%float = true -> (b <=? c)%float = true -> (a <=? c)%float = true.
Proof. rewrite !leb_cases. apply SFcompare_le_le. Qed.

Lemma float_lt_lt_trans (a b c : float) :
  (a <? b)%float = true -> (b <? c)%float = true -> (a <? c)%float = true.
Proof.
  rewrite !ltb_cases. intros H1 H2. apply (SFcompare_le_lt _ (Prim2SF b)); auto.
Qed.

Lemma float_lt_le (a b : float) : (a <? b)%float = true -> (a <=? b)%float = true.
Proof. rewrite ltb_cases, leb_cases. auto. Qed.

Lemma is_nan_Prim2SF (x : float) : is_nan x = true -> Prim2SF x = S754_nan.
Proof. intros H. unfold Prim2SF. rewrite H. reflexivity. Qed.

Lemma is_nan_iff (x : float) : is_nan x = true <-> Prim2SF x = S754_nan.
Proof.
  split; [apply is_nan_Prim2SF|].
  intros H. unfold is_nan. rewrite eqb_spec, H. reflexivity.
Qed.

Lemma not_nan_le_self (x : float) : is_nan x = false -> (x <=? x)%float = true.
Proof.
  unfold is_nan. rewrite eqb_spec, leb_spec. unfold SFeqb, SFleb.
  destruct (SFcompare (Prim2SF x) (Prim2SF x)) as [[| |]|]; simpl; congruence.
Qed.

(** A NaN compares with nothing. *)
Lemma nan_leb (x y : float) : is_nan x = true -> (x <=? y)%float = false.
Proof. intros H. apply is_nan_iff in H. rewrite leb_spec, H. reflexivity. Qed.


Lemma leb_nan (x y : float) : is_nan y = true -> (x <=? y)%float = false.
Proof.
  intros H. apply is_nan_iff in H. rewrite leb_spec, H.
  unfold SFleb. destruct (Prim2SF x) as [[|]|[|]| |[|] ? ?]; reflexivity.
Qed.



(** Only [inf] is at least [inf]. *)
Lemma infinity_le (x : float) : (infinity <=? x)%float = true -> x = infinity.
Proof.
  rewrite leb_spec. unfold SFleb. intros H. apply Prim2SF_inj.
  replace (Prim2SF infinity) with (S754_infinity false) in * by reflexivity.
  destruct (Prim2SF x) as [[|]|[|]| |[|] ? ?]; simpl in H; try discriminate H.
  reflexivity.
Qed.

(** ** Which category [get_bmi_category] returns *)

(** The result is one of the four entries, with [bmi] in its interval, or
    the fallback, and that exactly when [bmi] is outside [[0, inf)]. *)
Lemma bmi_category_cases (bmi : float) :
  (in_interval bmi 0 infinity = true /\
   ((get_bmi_category bmi = ("Underweight", 0, 18.5)%float /\
     in_interval bmi 0 18.5 = true) \/
    (get_bmi_category bmi = ("Normal weight", 18.5, 25)%float /\
     in_interval bmi 18.5 25 = true) \/
    (get_bmi_category bmi = ("Overweight", 25, 30)%float /\
     in_interval bmi 25 30 = true) \/
    (get_bmi_category bmi = ("Obesity", 30%float, infinity) /\
     in_interval bmi 30 infinity = true))) \/
  (in_interval bmi 0 infinity = false /\
   get_bmi_category bmi = ("Unknown", 0%float, 0%float)).
Proof.
  unfold get_bmi_category, BMI_CATEGORIES, in_interval. cbn [scan_categories].
  destruct (0 <=? bmi)%float eqn:H0; cbn [andb].
  - assert (Hb : (bmi <=? bmi)%float = true) by exact (float_le_self_r _ _ H0).
    destruct (bmi <? 18.5)%float eqn:E1.
    { left. split; [|left; split; reflexivity].
      apply (float_lt_lt_trans _ _ infinity E1). reflexivity. }
    assert (H1 : (18.5 <=? bmi)%float = true)
      by (apply float_not_lt_le; auto; reflexivity).
    rewrite H1. cbn [andb].
    destruct (bmi <? 25)%float eqn:E2.
    { left. split; [|right; left; split; reflexivity].
      apply (float_lt_lt_trans _ _ infinity E2). reflexivity. }
    assert (H2 : (25 <=? bmi)%float = true)
      by (apply float_not_lt_le; auto; reflexivity).
    rewrite H2. cbn [andb].
    destruct (bmi <? 30)%float eqn:E3.
    { left. split; [|right; right; left; split; reflexivity].
      apply (float_lt_lt_trans _ _ infinity E3). reflexivity. }
    assert (H3 : (30 <=? bmi)%float = true)
      by (apply float_not_lt_le; auto; reflexivity).
    rewrite H3. cbn [andb].
    destruct (bmi <? infinity)%float eqn:E4.
    { left. split; [reflexivity|right; right; right; split; reflexivity]. }
    right. split; reflexivity.
  - assert (Hlow : forall lo : float,
              (0 <=? lo)%float = true -> (lo <=? bmi)%float = false).
    { intros lo Hlo. destruct (lo <=? bmi)%float eqn:E; [|reflexivity].
      pose proof (float_le_le_trans _ _ _ Hlo E). congruence. }
    rewrite (Hlow 18.5%float), (Hlow 25%float), (Hlow 30%float) by reflexivity.
    right. split; reflexivity.
Qed.

(** X5: for every float, NaN and the infinities included, the category is
    ["Unknown"] exactly when [bmi] is outside [[0, inf)]; inside, it is one
    of the four weight categories, and outside, the whole result is the
    fallback [("Unknown", 0.0, 0.0)]. *)
Theorem bmi_category_unknown_iff (bmi : float) :
  (fst (fst (get_bmi_category bmi)) = "Unknown" <->
   in_interval bmi 0 infinity = false) /\
  (in_interval bmi 0 infinity = true ->
   In (fst (fst (get_bmi_category bmi))) weight_categories) /\
  (in_interval bmi 0 infinity = false ->
   get_bmi_category bmi = ("Unknown", 0%float, 0%float)).
Proof.
  destruct (bmi_category_cases bmi)
    as [[Hin [[-> _]|[[-> _]|[[-> _]|[-> _]]]]]|[Hout ->]];
    rewrite ?Hin, ?Hout; cbn [fst]; unfold weight_categories;
    (split; [split; intros H; try discriminate H; try reflexivity
            |split; intros H; try discriminate H; try reflexivity; simpl; tauto]).
Qed.

(** X6: within [[0, inf)] a larger BMI never gets a lower category: the
    interval returned for it starts and ends no lower. *)
Theorem bmi_category_monotone (bmi1 bmi2 : float) :
  in_interval bmi1 0 infinity = true -> in_interval bmi2 0 infinity = true ->
  (bmi1 <=? bmi2)%float = true ->
  (snd (fst (get_bmi_category bmi1)) <=? snd (fst (get_bmi_category bmi2)))%float
    = true /\
  (snd (get_bmi_category bmi1) <=? snd (get_bmi_category bmi2))%float = true.
Proof.
  intros H1 H2 Hle.
  destruct (bmi_category_cases bmi1) as [[_ C1]|[Hout _]]; [|congruence].
  destruct (bmi_category_cases bmi2) as [[_ C2]|[Hout _]]; [|congruence].
  unfold in_interval in C1, C2.
  destruct C1 as [[-> I1]|[[-> I1]|[[-> I1]|[-> I1]]]];
    destruct C2 as [[-> I2]|[[-> I2]|[[-> I2]|[-> I2]]]];
    cbn [fst snd]; try (split; reflexivity); exfalso;
    apply andb_prop in I1 as [L1 U1]; apply andb_prop in I2 as [L2 U2];
    pose proof (float_le_lt_trans _ _ _ (float_le_le_trans _ _ _ L1 Hle) U2) as F;
    vm_compute in F; discriminate F.
Qed.

(** The statement at the BMIs [22.5] and [27]. *)
Lemma bmi_category_monotone_witness :
  (snd (fst (get_bmi_category 22.5)) <=? snd (fst (get_bmi_category 27)))%float
    = true /\
  (snd (get_bmi_category 22.5) <=? snd (get_bmi_category 27))%float = true.
Proof.
  apply bmi_category_monotone; reflexivity.
Defined.

(** ** The lookups by category and by combobox value *)

(** X7: [get_bmi_explanation] gives the default explanation exactly for the
    strings that are none of the four weight categories, and different
    explanations to different categories. *)
Theorem explanation_default_iff (category : string) :
  (get_bmi_explanation category = Ok default_explanation <->
   ~ In category weight_categories) /\
  (forall other,
     In category weight_categories -> In other weight_categories ->
     get_bmi_explanation category = get_bmi_explanation other -> category = other).
Proof.
  unfold get_bmi_explanation, dict_get, explanations, default_explanation,
    weight_categories.
  cbn [dict_getitem].
  replace ("Unknown" =? "Unknown")%string with true by reflexivity.
  replace ("Underweight" =? "Unknown")%string with false by reflexivity.
  replace ("Normal weight" =? "Unknown")%string with false by reflexivity.
  replace ("Overweight" =? "Unknown")%string with false by reflexivity.
  replace ("Obesity" =? "Unknown")%string with false by reflexivity.
  cbn [bind]. split.
  - split.
    + intros H [<-|[<-|[<-|[<-|[]]]]]; discriminate H.
    + intros Hnot. string_cases; try reflexivity; exfalso; apply Hnot; simpl; tauto.
  - intros other [<-|[<-|[<-|[<-|[]]]]] [<-|[<-|[<-|[<-|[]]]]]; cbn;
      intros H; try reflexivity; discriminate H.
Qed.

(** X8: the values the two comboboxes offer are exactly the strings for which
    [get_activity_feedback] and [get_smoking_advice] have advice of their
    own: any other string, a value in another case included, gets the
    fallback text; different values get different advice; and the initial
    value of each combobox is one of its values. *)
Theorem combobox_values_have_advice :
  (forall s, get_activity_feedback s = activity_fallback <-> ~ In s activity_values) /\
  (forall s, get_smoking_advice s = smoking_fallback <-> ~ In s smoking_values) /\
  (forall s t, In s activity_values -> In t activity_values ->
     get_activity_feedback s = get_activity_feedback t -> s = t) /\
  (forall s t, In s smoking_values -> In t smoking_values ->
     get_smoking_advice s = get_smoking_advice t -> s = t) /\
  In activity_default activity_values /\ In smoking_default smoking_values.
Proof.
  unfold get_activity_feedback, get_smoking_advice, activity_fallback,
    smoking_fallback, activity_values, smoking_values.
  repeat split.
  - intros H [<-|[<-|[<-|[]]]]; discriminate H.
  - intros Hnot. string_cases; try reflexivity; exfalso; apply Hnot; simpl; tauto.
  - intros H [<-|[<-|[]]]; discriminate H.
  - intros Hnot. string_cases; try reflexivity; exfalso; apply Hnot; simpl; tauto.
  - intros s t [<-|[<-|[<-|[]]]] [<-|[<-|[<-|[]]]]; cbn;
      intros H; try reflexivity; discriminate H.
  - intros s t [<-|[<-|[]]] [<-|[<-|[]]]; cbn;
      intros H; try reflexivity; discriminate H.
  - simpl; tauto.
  - simpl; tauto.
Qed.

(** X9: the category of a BMI decides both lookups: inside [[0, inf)] the
    explanation is not the default one and there are three suggestions;
    outside, the explanation is the default one and there are the two
    general tips. *)
Theorem category_lookups (bmi : float) :
  let category := fst (fst (get_bmi_category bmi)) in
  (in_interval bmi 0 infinity = true ->
   (exists text,
      get_bmi_explanation category = Ok text /\ text <> default_explanation) /\
   List.length (generate_health_recommendations category) = 3%nat) /\
  (in_interval bmi 0 infinity = false ->
   get_bmi_explanation category = Ok default_explanation /\
   generate_health_recommendations category = [ wellness_tip; hydration_tip ]).
Proof.
  cbv zeta.
  destruct (bmi_category_cases bmi)
    as [[Hin [[-> _]|[[-> _]|[[-> _]|[-> _]]]]]|[Hout ->]];
    rewrite ?Hin, ?Hout; cbn [fst]; split; intros H; try discriminate H;
    (split; [try (eexists; split; [vm_compute; reflexivity|discriminate])
            |vm_compute; reflexivity]).
  vm_compute; reflexivity.
Qed.

(** ** The sign of what [calculate_bmi] returns *)

Lemma sf_plus_not_neg (x : spec_float) : sf_plus x = true -> sf_not_neg x = true.
Proof. destruct x as [[|]|[|]| |[|] ? ?]; simpl; auto. Qed.

Lemma ltb_zero_not_neg (x : float) :
  (x <? 0)%float = false <-> sf_not_neg (Prim2SF x) = true.
Proof.
  rewrite ltb_spec. unfold SFltb.
  replace (Prim2SF 0) with (S754_zero false) by reflexivity.
  destruct (Prim2SF x) as [[|]|[|]| |[|] ? ?]; simpl; intuition congruence.
Qed.

(** Rounding keeps the sign it is given. *)
Lemma binary_round_aux_plus (mx ex : Z) (lx : location) :
  sf_plus (binary_round_aux prec emax false mx ex lx) = true.
Proof.
  unfold binary_round_aux.
  destruct (shr_fexp prec emax mx ex lx) as [mrs' e'].
  destruct (shr_fexp prec emax _ e' loc_Exact) as [mrs'' e''].
  destruct (shr_m mrs''); [reflexivity| |reflexivity].
  destruct (e'' <=? emax - prec); reflexivity.
Qed.

Lemma binary_round_plus (m : positive) (e : Z) :
  sf_plus (binary_round prec emax false m e) = true.
Proof.
  unfold binary_round.
  destruct (shl_align m e _) as [mz ez]. apply binary_round_aux_plus.
Qed.

(** A square has a clear sign bit, and so has what it divides, unless that
    is a zero. *)
Lemma SFmul_self_plus (x : spec_float) : sf_plus (SFmul prec emax x x) = true.
Proof.
  destruct x as [[|]|[|]| |[|] m e]; simpl; try reflexivity;
    apply binary_round_aux_plus.
Qed.

Lemma SFdiv_not_neg (a d : spec_float) :
  sf_not_neg a = true -> sf_plus d = true ->
  sf_not_neg (SFdiv prec emax a d) = true.
Proof.
  destruct a as [[|]|[|]| |[|] ma ea], d as [[|]|[|]| |[|] md ed];
    simpl; try reflexivity; try discriminate; intros _ _.
  destruct (SFdiv_core_binary prec emax (Z.pos ma) ea (Z.pos md) ed) as [[mz ez] lz].
  apply sf_plus_not_neg, binary_round_aux_plus.
Qed.

Lemma SFldexp_plus (x : spec_float) (e : Z) :
  sf_plus x = true -> sf_plus (SFldexp prec emax x e) = true.
Proof.
  destruct x as [[|]|[|]| |[|] m ex]; simpl; try reflexivity; try discriminate.
  intros _. apply binary_round_plus.
Qed.

Lemma SF2Prim_plus (x : spec_float) :
  sf_plus x = true -> sf_plus (Prim2SF (SF2Prim x)) = true.
Proof.
  destruct x as [[|]|[|]| |[|] m e]; try reflexivity; try discriminate.
  intros _. unfold SF2Prim, Z.ldexp. rewrite ldshiftexp_spec. apply SFldexp_plus.
  rewrite of_uint63_spec.
  generalize (Uint63.to_Z_bounded (Uint63.of_Z (Z.pos m))).
  destruct (Uint63.to_Z (Uint63.of_Z (Z.pos m))) as [|p|p];
    cbn [binary_normalize]; intros [Hb _];
    [reflexivity|apply binary_round_plus|].
  exfalso. apply Hb. reflexivity.
Qed.

Lemma float_round_not_neg (x : float) (nd : nat) :
  sf_not_neg (Prim2SF x) = true ->
  sf_not_neg (Prim2SF (Py.float_round x nd)) = true.
Proof.
  unfold Py.float_round.
  destruct (Prim2SF x) as [s|s| |s m e] eqn:E; try (rewrite E; auto; fail).
  simpl. destruct s; [discriminate|]. intros _.
  destruct (Py.scaled_round m e nd) as [|n|n]; try reflexivity.
  apply sf_plus_not_neg, SF2Prim_plus.
  unfold SFdiv.
  destruct (SFdiv_core_binary prec emax (Z.pos n) 0 _ 0) as [[mz ez] lz].
  apply binary_round_aux_plus.
Qed.

Lemma float_pow2_plus (h d : float) :
  Py.float_pow2 h = Ok d -> sf_plus (Prim2SF d) = true.
Proof.
  unfold Py.float_pow2.
  destruct (is_nan h) eqn:N.
  { intros [= <-]. now rewrite (is_nan_Prim2SF _ N). }
  destruct (is_infinity h).
  { intros [= <-]. reflexivity. }
  destruct (is_infinity (h * h)); [discriminate|].
  intros [= <-]. rewrite mul_spec. apply SFmul_self_plus.
Qed.

Lemma calculate_bmi_sign (weight_kg height_m bmi : float) :
  (weight_kg <? 0)%float = false ->
  calculate_bmi weight_kg height_m = Ok bmi ->
  (bmi <? 0)%float = false.
Proof.
  intros Hw. apply ltb_zero_not_neg in Hw.
  unfold calculate_bmi.
  destruct (height_m <=? 0)%float.
  { intros [= <-]. reflexivity. }
  destruct (Py.float_pow2 height_m) as [d|e] eqn:Ed;
    [|destruct e; cbn [bind try_except_type_value]; try discriminate;
      intros [= <-]; reflexivity].
  cbn [bind]. unfold Py.float_truediv.
  destruct (is_zero d); cbn [bind try_except_type_value]; [discriminate|].
  intros [= <-].
  apply ltb_zero_not_neg, float_round_not_neg.
  rewrite div_spec. apply SFdiv_not_neg; [exact Hw|].
  exact (float_pow2_plus _ _ Ed).
Qed.

(** X10: a weight that is not negative (positive, a zero, [inf] or a NaN)
    never gives a negative BMI, whatever the height: the square of the
    height, the division and the rounding all keep the sign. *)
Theorem bmi_not_negative (weight_kg height_m bmi : float) :
  (weight_kg <? 0)%float = false ->
  calculate_bmi weight_kg height_m = Ok bmi ->
  (bmi <? 0)%float = false.
Proof. exact (calculate_bmi_sign weight_kg height_m bmi). Qed.

(** The statement at the weight [70] and the height [1.7]. *)
Lemma bmi_not_negative_witness : (24.22 <? 0)%float = false.
Proof.
  apply (bmi_not_negative 70 1.7 24.22); [reflexivity|].
  vm_compute. reflexivity.
Defined.

(** ** NaN through [calculate_bmi] and [get_bmi_category] *)

Lemma div_nan_r (a d : float) : is_nan d = true -> is_nan (a / d) = true.
Proof.
  intros H. apply is_nan_iff in H. apply is_nan_iff. rewrite div_spec, H.
  destruct (Prim2SF a) as [[|]|[|]| |[|] ? ?]; reflexivity.
Qed.

Lemma div_nan_l (a d : float) : is_nan a = true -> is_nan (a / d) = true.
Proof.
  intros H. apply is_nan_iff in H. apply is_nan_iff. rewrite div_spec, H.
  reflexivity.
Qed.

Lemma is_zero_nan (x : float) : is_nan x = true -> is_zero x = false.
Proof.
  intros H. apply is_nan_iff in H. unfold is_zero. rewrite eqb_spec, H. reflexivity.
Qed.

Lemma float_round_nan (x : float) (nd : nat) :
  is_nan x = true -> Py.float_round x nd = x.
Proof.
  intros H. apply is_nan_iff in H. unfold Py.float_round. rewrite H. reflexivity.
Qed.

(** A NaN height passes the guard, its square and the division raise nothing,
    and the result is a NaN. *)
Lemma calculate_bmi_nan_height (w h : float) :
  is_nan h = true -> calculate_bmi w h = Ok (w / h)%float.
Proof.
  intros H. unfold calculate_bmi, Py.float_pow2, Py.float_truediv.
  rewrite (nan_leb h 0 H), H. cbn [bind]. rewrite (is_zero_nan h H).
  cbn [bind try_except_type_value].
  now rewrite (float_round_nan _ _ (div_nan_r w h H)).
Qed.

Lemma nan_category (bmi : float) :
  is_nan bmi = true ->
  get_bmi_category bmi = ("Unknown", 0%float, 0%float) /\
  Py.float_format_fixed bmi 2 = "nan".
Proof.
  intros H. split.
  - destruct (bmi_category_cases bmi) as [[Hin _]|[_ ->]]; [|reflexivity].
    unfold in_interval in Hin. rewrite (leb_nan 0 bmi H) in Hin. discriminate Hin.
  - apply is_nan_iff in H. unfold Py.float_format_fixed. rewrite H. reflexivity.
Qed.

(** ** What the report contains *)

Lemma prefix_app (n a b : string) :
  String.prefix n a = true -> String.prefix n (a ++ b) = true.
Proof.
  revert a. induction n as [|c n IH]; intros a;
    [intros _; destruct (a ++ b); reflexivity|].
  destruct a as [|d a]; simpl; [discriminate|].
  destruct (ascii_dec c d); [apply IH|discriminate].
Qed.

Lemma prefix_self_app (n b : string) : String.prefix n (n ++ b) = true.
Proof.
  induction n as [|c n IH]; [destruct b; reflexivity|].
  simpl. destruct (ascii_dec c c); [exact IH|congruence].
Qed.

Lemma contains_unfold (n h : string) :
  contains n h =
  String.prefix n h || match h with "" => false | String _ rest => contains n rest end.
Proof. destruct h; reflexivity. Qed.

Lemma contains_here (n b : string) : contains n (n ++ b) = true.
Proof. rewrite contains_unfold, prefix_self_app. reflexivity. Qed.

Lemma contains_self (n : string) : contains n n = true.
Proof.
  rewrite contains_unfold.
  replace (String.prefix n n) with true; [reflexivity|].
  symmetry. induction n as [|c n IH]; [reflexivity|].
  simpl. destruct (ascii_dec c c); [exact IH|congruence].
Qed.

Lemma contains_app_r (n a b : string) :
  contains n b = true -> contains n (a ++ b) = true.
Proof.
  intros H. induction a as [|c a IH]; [exact H|].
  simpl append. rewrite contains_unfold, IH. apply orb_true_r.
Qed.

Lemma contains_app_l (n a b : string) :
  contains n a = true -> contains n (a ++ b) = true.
Proof.
  induction a as [|c a IH].
  - rewrite contains_unfold, orb_false_r. intros H.
    destruct n; [|destruct (String.prefix (String a n) "") eqn:E; simpl in *; discriminate].
    rewrite contains_unfold. destruct ("" ++ b); reflexivity.
  - rewrite contains_unfold. intros H. apply orb_prop in H as [H|H].
    + pose proof (prefix_app _ (String c a) b H) as P. simpl append in *.
      rewrite contains_unfold, P. reflexivity.
    + simpl append. rewrite contains_unfold, (IH H). apply orb_true_r.
Qed.

(** The loop over the suggestions only appends: it keeps what the report
    holds and adds a line for each suggestion. *)
Lemma contains_fold_keeps (n : string) (l : list string) (r : string) :
  contains n r = true ->
  contains n (fold_left (fun report s => report ++ "-> " ++ s ++ nl) l r) = true.
Proof.
  revert r. induction l as [|s l IH]; intros r H; [exact H|].
  simpl. apply IH, contains_app_l, H.
Qed.

Lemma contains_fold_adds (l : list string) (r s : string) :
  In s l ->
  contains ("-> " ++ s ++ nl)
    (fold_left (fun report s => report ++ "-> " ++ s ++ nl) l r) = true.
Proof.
  revert r. induction l as [|x l IH]; intros r Hin; [destruct Hin|].
  destruct Hin as [<-|H].
  - cbn [fold_left]. apply contains_fold_keeps, contains_app_r.
    apply contains_self.
  - cbn [fold_left]. apply IH, H.
Qed.

Lemma health_report_contents (i : inputs) (report : string) :
  health_report i = Ok report ->
  forallb (fun label => contains label report) section_labels = true /\
  exists bmi category min_val max_val,
    bmi_and_category i = Ok (bmi, (category, min_val, max_val)) /\
    contains ("Calculated BMI: " ++ Py.float_format_fixed bmi 2 ++ nl) report = true /\
    contains ("BMI Category: " ++ category ++ nl) report = true /\
    forall s, In s (generate_health_recommendations category) ->
      contains ("-> " ++ s ++ nl) report = true.
Proof.
  unfold health_report.
  destruct (bmi_and_category i) as [[bmi [[category min_val] max_val]]|e];
    cbv beta iota zeta delta [bind]; [|discriminate].
  destruct (get_bmi_explanation category) as [meaning|e];
    cbv beta iota zeta delta [bind]; [|discriminate].
  destruct (get_sleep_feedback (age i) (PyFloat (sleep_hours i))) as [advice|e];
    cbv beta iota zeta delta [bind]; [|discriminate].
  intros H.
  apply (f_equal (fun r => match r with Ok x => x | Raise _ => "" end)) in H.
  cbv beta iota in H. subst report.
  split.
  - unfold section_labels. cbn [forallb].
    repeat (apply andb_true_intro; split); try reflexivity;
      apply contains_fold_keeps;
      find_piece contains_self contains_here contains_app_r contains_app_l.
  - exists bmi, category, min_val, max_val. repeat split.
    + apply contains_fold_keeps;
        find_piece contains_self contains_here contains_app_r contains_app_l.
    + apply contains_fold_keeps;
        find_piece contains_self contains_here contains_app_r contains_app_l.
    + intros s Hs. apply contains_fold_adds, Hs.
Qed.

(** X11: every report, whatever the input, has the five section headings,
    the line of the BMI as [calculate_bmi] returned it, printed with two
    decimals, the line of its category, and one line for each suggestion of
    [generate_health_recommendations]. *)
Theorem report_sections (i : inputs) (report : string) :
  health_report i = Ok report ->
  forallb (fun label => contains label report) section_labels = true /\
  exists bmi category min_val max_val,
    bmi_and_category i = Ok (bmi, (category, min_val, max_val)) /\
    contains ("Calculated BMI: " ++ Py.float_format_fixed bmi 2 ++ nl) report = true /\
    contains ("BMI Category: " ++ category ++ nl) report = true /\
    forall s, In s (generate_health_recommendations category) ->
      contains ("-> " ++ s ++ nl) report = true.
Proof. exact (health_report_contents i report). Qed.

(** The statement for the inputs with an infinite weight. *)
Lemma report_sections_witness :
  forallb
    (fun label =>
       contains label
         (match health_report inputs_with_infinite_weight with
          | Ok report => report
          | Raise _ => ""
          end))
    section_labels = true.
Proof.
  apply (report_sections inputs_with_infinite_weight).
  vm_compute. reflexivity.
Defined.

(** ** What the validation accepts, and which alert it shows *)

Lemma gather_and_validate_ok (f : form) (i : inputs) :
  gather_and_validate f = Ok i ->
  age_entry f = Parsed (age i) /\ height_cm_entry f = Parsed (height_cm i) /\
  weight_kg_entry f = Parsed (weight_kg i) /\
  sleep_hours_entry f = Parsed (sleep_hours i) /\
  activity_var f = activity_level_str i /\ smoking_var f = smoking_status i /\
  0 < age i /\ (height_cm i <=? 0)%float = false /\
  (weight_kg i <=? 0)%float = false /\ (sleep_hours i <? 0)%float = false.
Proof.
  destruct f as [a h x s act smo]. unfold gather_and_validate.
  cbn [age_entry height_cm_entry weight_kg_entry sleep_hours_entry activity_var
       smoking_var].
  destruct a as [a|]; cbn [convert bind]; [|discriminate].
  destruct h as [h|]; cbn [convert bind]; [|discriminate].
  destruct x as [x|]; cbn [convert bind]; [|discriminate].
  destruct s as [s|]; cbn [convert bind]; [|discriminate].
  destruct (a <=? 0) eqn:Ea; cbn [orb]; [discriminate|].
  destruct (h <=? 0)%float eqn:Eh; cbn [orb]; [discriminate|].
  destruct (x <=? 0)%float eqn:Ex; cbn [orb]; [discriminate|].
  destruct (s <? 0)%float eqn:Es; [discriminate|].
  intros [= <-]. cbn. apply Z.leb_gt in Ea. repeat split; auto.
Qed.


(** X13: the alert carries the message of the first field, in the order age,
    height, weight, sleep, that fails to parse, whatever the later fields
    hold; the message about positive inputs is shown only when all four
    parse; and a form that is not invalid adds no alert. *)
Theorem alert_message_precedence (w : gui) (f : form) :
  let shown := alerts (fst (calculate_health w f)) in
  (forall msg, age_entry f = Unparsable msg ->
     shown = (alerts w ++ [input_error_alert msg])%list) /\
  (forall a msg, age_entry f = Parsed a -> height_cm_entry f = Unparsable msg ->
     shown = (alerts w ++ [input_error_alert msg])%list) /\
  (forall a h msg, age_entry f = Parsed a -> height_cm_entry f = Parsed h ->
     weight_kg_entry f = Unparsable msg ->
     shown = (alerts w ++ [input_error_alert msg])%list) /\
  (forall a h x msg, age_entry f = Parsed a -> height_cm_entry f = Parsed h ->
     weight_kg_entry f = Parsed x -> sleep_hours_entry f = Unparsable msg ->
     shown = (alerts w ++ [input_error_alert msg])%list) /\
  (forall a h x s, age_entry f = Parsed a -> height_cm_entry f = Parsed h ->
     weight_kg_entry f = Parsed x -> sleep_hours_entry f = Parsed s ->
     invalid_input f = true ->
     shown = (alerts w ++ [input_error_alert positivity_message])%list) /\
  (invalid_input f = false -> shown = alerts w).
Proof.
  destruct f as [a h x s act smo].
  unfold calculate_health, submit, gather_and_validate, invalid_input.
  cbn [age_entry height_cm_entry weight_kg_entry sleep_hours_entry activity_var
       smoking_var].
  repeat split.
  - intros msg ->. reflexivity.
  - intros a' msg -> ->. reflexivity.
  - intros a' h' msg -> -> ->. reflexivity.
  - intros a' h' x' msg -> -> -> ->. reflexivity.
  - intros a' h' x' s' -> -> -> ->. cbn [parse_failed orb convert bind].
    intros ->. reflexivity.
  - destruct a as [a|]; cbn [parse_failed orb convert bind]; [|discriminate].
    destruct h as [h|]; cbn [parse_failed orb convert bind]; [|discriminate].
    destruct x as [x|]; cbn [parse_failed orb convert bind]; [|discriminate].
    destruct s as [s|]; cbn [parse_failed orb convert bind];
      [|rewrite ?orb_true_r; discriminate].
    intros ->.
    match goal with
    | |- context [health_report ?i] => destruct (health_report i)
    end; reflexivity.
Qed.

(** X14: what a submission leaves does not depend on what the window showed
    before: the results area holds a text that the form alone decides (the
    new report, or nothing), so reports never pile up; the alerts shown
    before stay, and at most one is added, exactly when the form is
    invalid; and the handler returns or raises as the form alone decides. *)
Theorem window_independent_outcome (f : form) :
  exists (text : string) (shown : list (string * string)) (outcome : result unit),
    (List.length shown <= 1)%nat /\
    (shown = [] <-> invalid_input f = false) /\
    forall w,
      calculate_health w f =
        ({| results_text := text; alerts := alerts w ++ shown |}, outcome).
Proof.
  unfold calculate_health, submit.
  destruct (gather_and_validate f) as [i|e] eqn:E.
  - assert (Hv : invalid_input f = false).
    { destruct (invalid_input f) eqn:Ei; [|reflexivity].
      destruct (invalid_input_raises f Ei) as [e He]. congruence. }
    destruct (health_report i) as [report|e].
    + exists report, [], (Ok tt). repeat split; auto.
      intros w. cbn. now rewrite app_nil_r.
    + exists "", [], (Raise e). repeat split; auto.
      intros w. cbn. now rewrite app_nil_r.
  - assert (Hi : invalid_input f = true).
    { destruct (invalid_input f) eqn:Ei; [reflexivity|].
      destruct f as [a h x s act smo].
      unfold gather_and_validate, invalid_input in *.
      cbn [age_entry height_cm_entry weight_kg_entry sleep_hours_entry activity_var
           smoking_var] in *.
      destruct a as [a|]; cbn [parse_failed orb convert bind] in *; [|discriminate].
      destruct h as [h|]; cbn [parse_failed orb convert bind] in *; [|discriminate].
      destruct x as [x|]; cbn [parse_failed orb convert bind] in *; [|discriminate].
      destruct s as [s|]; cbn [parse_failed orb convert bind] in *;
        [|rewrite ?orb_true_r in Ei; discriminate].
      rewrite Ei in E. discriminate E. }
    destruct (invalid_input_raises f Hi) as [msg Hmsg].
    rewrite E in Hmsg. injection Hmsg as ->.
    exists "", [input_error_alert msg], (Ok tt). repeat split; auto.
    + intros H; discriminate H.
    + intros H; congruence.
Qed.

(** ** NaN and [inf] through the form *)

(** X15: a height of [nan] is not an input error: with an age above zero and
    a weight and sleep hours that pass the validation, the handler shows no
    alert and writes a report whose BMI is printed as [nan] and whose
    category is [Unknown]. *)
Theorem nan_height_submission (w : gui) (a : Z) (h x s : float) (act smo : string) :
  0 < a -> is_nan h = true -> (x <=? 0)%float = false -> (s <? 0)%float = false ->
  exists report,
    calculate_health w
      {| age_entry := Parsed a; height_cm_entry := Parsed h;
         weight_kg_entry := Parsed x; sleep_hours_entry := Parsed s;
         activity_var := act; smoking_var := smo |} =
      ({| results_text := report; alerts := alerts w |}, Ok tt) /\
    contains ("Calculated BMI: nan" ++ nl) report = true /\
    contains ("BMI Category: Unknown" ++ nl) report = true.
Proof.
  intros Ha Hh Hx Hs.
  unfold calculate_health, submit, gather_and_validate.
  cbn [age_entry height_cm_entry weight_kg_entry sleep_hours_entry activity_var
       smoking_var convert bind].
  replace (a <=? 0) with false by (symmetry; now apply Z.leb_gt).
  rewrite (nan_leb h 0 Hh), Hx, Hs. cbn [orb].
  set (i := {| age := a; height_cm := h; weight_kg := x; sleep_hours := s;
               activity_level_str := act; smoking_status := smo |}).
  assert (Hbc : exists bmi,
            bmi_and_category i = Ok (bmi, ("Unknown", 0%float, 0%float))
            /\ Py.float_format_fixed bmi 2 = "nan").
  { unfold bmi_and_category, Py.float_truediv. cbn [height_cm weight_kg i].
    replace (is_zero 100) with false by reflexivity. cbn [bind].
    rewrite (calculate_bmi_nan_height x (h / 100) (div_nan_l h 100 Hh)).
    cbn [bind].
    destruct (nan_category (x / (h / 100))
                (div_nan_r x (h / 100) (div_nan_l h 100 Hh))) as [-> Hfmt].
    eexists. split; [reflexivity|exact Hfmt]. }
  destruct Hbc as [bmi [Hbc Hfmt]].
  destruct (health_report i) as [report|e] eqn:Er.
  - exists report. split; [reflexivity|].
    destruct (health_report_contents i report Er)
      as [_ (bmi' & c & lo & hi & Hbc' & Hb & Hc & _)].
    rewrite Hbc in Hbc'. injection Hbc' as <- <- <- <-.
    rewrite Hfmt in Hb. split; assumption.
  - exfalso. unfold health_report in Er. rewrite Hbc in Er.
    cbv beta iota zeta delta [bind] in Er.
    destruct (get_bmi_explanation_returns "Unknown") as [m Hm]. rewrite Hm in Er.
    destruct (get_sleep_feedback_returns a (PyFloat s)) as [t Ht].
    cbn [age sleep_hours i] in Er. rewrite Ht in Er. discriminate Er.
Qed.

(** The statement for the age 25, the height [nan], the weight 70 and 8
    hours of sleep. *)
Lemma nan_height_submission_witness :
  exists report,
    calculate_health window_with_report
      {| age_entry := Parsed 25; height_cm_entry := Parsed nan;
         weight_kg_entry := Parsed 70%float; sleep_hours_entry := Parsed 8%float;
         activity_var := "Active"; smoking_var := "No" |} =
      ({| results_text := report; alerts := [] |}, Ok tt) /\
    contains ("Calculated BMI: nan" ++ nl) report = true /\
    contains ("BMI Category: Unknown" ++ nl) report = true.
Proof.
  apply (nan_height_submission window_with_report 25 nan 70 8 "Active" "No");
    reflexivity.
Defined.

(** X16: sleep hours of [nan] are neither below nor above any range, so an
    adult is told that [nan] hours fall perfectly within the recommended
    range of the age group. *)
Theorem nan_sleep_hours (age : Z) (x : float) :
  is_nan x = true ->
  num_str (PyFloat x) = "nan" /\
  (18 <= age <= 64 ->
   get_sleep_feedback age (PyFloat x) = Ok (sleep_within_message (PyFloat x) 7 9)) /\
  (65 <= age ->
   get_sleep_feedback age (PyFloat x) = Ok (sleep_within_message (PyFloat x) 7 8)).
Proof.
  intros H. apply is_nan_iff in H.
  assert (Hc : forall n, float_cmp_int x n = None)
    by (intros n; unfold float_cmp_int; now rewrite H).
  split; [cbn [num_str]; unfold Py.float_repr; now rewrite H|].
  unfold get_sleep_feedback, sleep_feedback_for.
  replace (dict_getitem SLEEP_RECOMMENDATIONS "18-64") with (Ok (7, 9))
    by reflexivity.
  replace (dict_getitem SLEEP_RECOMMENDATIONS "65+") with (Ok (7, 8))
    by reflexivity.
  unfold num_lt_int, num_gt_int, num_cmp_int. cbn [bind]. rewrite !Hc.
  split.
  - intros [H1 H2].
    replace (18 <=? age) with true by (symmetry; apply Z.leb_le; lia).
    replace (age <=? 64) with true by (symmetry; apply Z.leb_le; lia).
    reflexivity.
  - intros H1.
    replace (age <=? 64) with false by (symmetry; apply Z.leb_gt; lia).
    replace (65 <=? age) with true by (symmetry; apply Z.leb_le; lia).
    rewrite andb_false_r. reflexivity.
Qed.

(** The statement at the age 30. *)
Lemma nan_sleep_hours_witness :
  get_sleep_feedback 30 (PyFloat nan) =
    Ok "Excellent! Your sleep of nan hours falls perfectly within the recommended 7-9 hour range. Recommendation: Maintain this consistent sleep pattern for optimal health.".
Proof.
  destruct (nan_sleep_hours 30 nan eq_refl) as [_ [H _]].
  rewrite H by lia. reflexivity.
Defined.

(** X17: in a report the category [Unknown] means that the BMI is a NaN or
    [inf]: the validation lets no negative weight through, so
    [calculate_bmi] returns no negative BMI. *)
Theorem unknown_means_inf_or_nan (f : form) (i : inputs) (bmi lo hi : float) :
  gather_and_validate f = Ok i ->
  bmi_and_category i = Ok (bmi, ("Unknown", lo, hi)) ->
  is_nan bmi = true \/ bmi = infinity.
Proof.
  intros Hv Hbc. apply gather_and_validate_ok in Hv.
  destruct Hv as (_ & _ & _ & _ & _ & _ & _ & _ & Hx & _).
  unfold bmi_and_category, Py.float_truediv in Hbc.
  replace (is_zero 100) with false in Hbc by reflexivity. cbn [bind] in Hbc.
  destruct (calculate_bmi (weight_kg i) (height_cm i / 100)) as [b|e] eqn:Eb;
    cbn [bind] in Hbc; [|discriminate Hbc].
  injection Hbc as -> Hcat.
  assert (Hn : (weight_kg i <? 0)%float = false).
  { destruct (weight_kg i <? 0)%float eqn:E; [|reflexivity].
    apply float_lt_le in E. congruence. }
  pose proof (calculate_bmi_sign _ _ _ Hn Eb) as Hb.
  destruct (is_nan bmi) eqn:N; [left; reflexivity|right].
  destruct (bmi_category_cases bmi) as [[_ C]|[Hout _]].
  { destruct C as [[C _]|[[C _]|[[C _]|[C _]]]]; rewrite C in Hcat;
      discriminate Hcat. }
  pose proof (not_nan_le_self bmi N) as Hs.
  assert (H0 : (0 <=? bmi)%float = true)
    by (apply float_not_lt_le; auto).
  unfold in_interval in Hout. rewrite H0 in Hout. cbn [andb] in Hout.
  apply infinity_le, float_not_lt_le; auto.
Qed.

(** The statement for the form whose weight is [inf]. *)
Lemma unknown_means_inf_or_nan_witness :
  is_nan infinity = true \/ infinity = infinity.
Proof.
  apply (unknown_means_inf_or_nan form_with_infinite_weight
           inputs_with_infinite_weight infinity 0 0);
    vm_compute; reflexivity.
Defined.
